(** * QuestFocus: the progression engine, the streak rule, the achievement
      evaluator and the feedback service, embedded from the TypeScript sources.

    Conventions of the embedding.

    - A JavaScript [number] that the program only ever uses as an integer
      (levels, XP, minutes, seconds, millisecond timestamps) is a [Z].
    - The leveling curve multiplies by the decimal constant [1.2] and takes
      [Math.floor]; it is computed here over the rationals [Q] with the
      multiplier [12/10], so [Math.pow] is [Qpower] and [Math.floor] is
      [Qfloor].  Rounding and overflow of IEEE doubles are outside this model.
    - [Math.ceil (timerSeconds / 60)] is [Qceiling] of the rational quotient.
    - A [Date] is its time value, the milliseconds since the epoch (UTC).
      The prefix [YYYY-MM-DD] that [toISOString().split('T')[0]] returns is
      represented by the UTC day number of the instant, which it determines
      and is determined by.
    - The [while] loop is a fixpoint on a step budget that answers [None]
      when the budget is exhausted; the theorems give a budget that suffices. *)

From Stdlib Require Import ZArith QArith Qround Qpower Lia List String Bool.
From Stdlib Require Import Qminmax DecimalString Ascii.
Import ListNotations.
Local Open Scope Z_scope.

(** ** constants.ts *)

Module Constants.

Definition XP_PER_MINUTE : Z := 10.
Definition BASE_LEVEL_XP : Z := 500.
Definition LEVEL_MULTIPLIER : Q := 12 # 10.

(** [Math.floor(BASE_LEVEL_XP * Math.pow(LEVEL_MULTIPLIER, level - 1))] *)
Definition calculateNextLevelXP (level : Z) : Z :=
  Qfloor (inject_Z BASE_LEVEL_XP * Qpower LEVEL_MULTIPLIER (level - 1)).

(** The argument of [Math.floor] above, used in the proofs about the curve. *)
Definition curveQ (level : Z) : Q :=
  inject_Z BASE_LEVEL_XP * Qpower LEVEL_MULTIPLIER (level - 1).

End Constants.
Export Constants.

(** ** types.ts *)

Module Session.
Record t : Type := mk
  { id : string;
    startTime : Z;
    endTime : Z;
    durationMinutes : Z;
    subject : string;
    xpEarned : Z }.
End Session.

Module UserStats.
(** [lastStudyDate] is an ISO date string or [null]; the string is kept as
    the time value it denotes. *)
Record t : Type := mk
  { level : Z;
    currentXP : Z;
    nextLevelXP : Z;
    totalStudyMinutes : Z;
    streakDays : Z;
    lastStudyDate : option Z }.
End UserStats.

Module Achievement.
(** [condition] is optional: the handler guards the call with
    [ach.condition && ...], and a catalog read back from storage has lost its
    functions. *)
Record t : Type := mk
  { id : string;
    title : string;
    description : string;
    icon : string;
    unlocked : bool;
    condition : option (UserStats.t -> list Session.t -> bool) }.

Definition unlock (a : t) : t :=
  mk (id a) (title a) (description a) (icon a) true (condition a).
End Achievement.

Inductive AppView : Type := TIMER | STATS | ACHIEVEMENTS.

Inductive FeedbackType : Type := encouragement | victory | tip.

Module GeminiFeedback.
Record t : Type := mk { message : string; type : FeedbackType }.
End GeminiFeedback.

(** ** constants.ts, continued: initial stats and the achievement catalog *)

Module Catalog.

Definition INITIAL_STATS : UserStats.t :=
  UserStats.mk 1 0 BASE_LEVEL_XP 0 0 None.

(** One catalog entry; [unlocked] is added by the application ([false]). *)
Definition entry (id title description icon : string)
    (condition : UserStats.t -> list Session.t -> bool) : Achievement.t :=
  Achievement.mk id title description icon false (Some condition).

Definition ACHIEVEMENTS_DATA : list Achievement.t :=
  [ entry "first_step" "Novice Scholar" "Complete your first study session."
      "🌱"
      (fun _ sessions => Z.of_nat (List.length sessions) >=? 1);
    entry "dedicated" "Dedicated Student" "Study for a total of 5 hours."
      "📚"
      (fun stats _ => UserStats.totalStudyMinutes stats >=? 300);
    entry "streak_3" "On Fire" "Reach a 3-day study streak."
      "🔥"
      (fun stats _ => UserStats.streakDays stats >=? 3);
    entry "deep_work" "Deep Focus"
      "Complete a single session longer than 60 minutes."
      "🧘"
      (fun _ sessions =>
         existsb (fun s => Session.durationMinutes s >=? 60) sessions);
    entry "master" "Grandmaster" "Reach Level 10."
      "👑"
      (fun stats _ => UserStats.level stats >=? 10) ].

End Catalog.
Export Catalog.

(** ** services/geminiService.ts *)

Module GeminiService.

Record Client : Type := GoogleGenAI { apiKey : string }.

(** The three values interpolated into the prompt template. *)
Record Prompt : Type :=
  { prompt_level : Z; prompt_subject : string; prompt_durationMinutes : Z }.

Record Request : Type :=
  { model : string; contents : Prompt; responseMimeType : string }.

(** What [await client.models.generateContent(...)] does: it throws, or it
    resolves to a response whose [text] may be missing. *)
Inductive CallOutcome : Type :=
| CallThrows
| CallReturns (text : option string).

(** What [JSON.parse(text)] does: it throws, or it yields a value ([null]
    or an object taken as a [GeminiFeedback]). *)
Inductive ParseOutcome : Type :=
| ParseThrows
| ParseValue (v : option GeminiFeedback.t).

(** The surroundings of the service: the environment variable, the remote
    model and the JSON parser. *)
Record Env : Type :=
  { API_KEY : option string;
    generateContent : Client -> Request -> CallOutcome;
    JSON_parse : string -> ParseOutcome }.

(** Observable actions, in the order they happen. *)
Inductive Event : Type :=
| ConsoleWarn (msg : string)
| NetworkCall (c : Client) (r : Request)
| ConsoleError (msg : string).

(** JavaScript truthiness of a string that may be missing. *)
Definition truthy (s : option string) : bool :=
  match s with
  | None => false
  | Some EmptyString => false
  | Some (String _ _) => true
  end.

Definition getClient (env : Env) : list Event * option Client :=
  let apiKey := API_KEY env in
  match apiKey with
  | Some key =>
      if negb (truthy apiKey)
      then ([ConsoleWarn "API Key not found in environment variables"], None)
      else ([], Some (GoogleGenAI key))
  | None => ([ConsoleWarn "API Key not found in environment variables"], None)
  end.

Definition fallback : GeminiFeedback.t :=
  GeminiFeedback.mk "Quest complete! Well done, adventurer." victory.

(** The argument of [generateContent]. *)
Definition requestFor (durationMinutes : Z) (subject : string) (level : Z)
  : Request :=
  let prompt := Build_Prompt level subject durationMinutes in
  Build_Request "gemini-2.5-flash" prompt "application/json".

Definition getSessionFeedback (env : Env)
    (durationMinutes : Z) (subject : string) (level : Z)
  : list Event * option GeminiFeedback.t :=
  let (log, client) := getClient env in
  match client with
  | None => (log, None)
  | Some client =>
      let request := requestFor durationMinutes subject level in
      let log := log ++ [NetworkCall client request] in
      match generateContent env client request with
      | CallThrows =>
          (log ++ [ConsoleError "Gemini API Error:"], Some fallback)
      | CallReturns text =>
          match text with
          | Some t =>
              if negb (truthy text) then (log, None)
              else
                match JSON_parse env t with
                | ParseThrows =>
                    (log ++ [ConsoleError "Gemini API Error:"], Some fallback)
                | ParseValue v => (log, v)
                end
          | None => (log, None)
          end
      end
  end.

Definition isNetworkCall (e : Event) : bool :=
  match e with NetworkCall _ _ => true | _ => false end.

Definition isConsoleError (e : Event) : bool :=
  match e with ConsoleError _ => true | _ => false end.

End GeminiService.

(** ** The [Date] operations the handler uses

    A [Date] is its time value [t], in milliseconds since the epoch.  The
    language defines [LocalTime(t) = t + LocalTZA(t, true)] and
    [UTC(t) = t - LocalTZA(t, false)], where [LocalTZA] is the offset of the
    host's time zone and its second argument says whether the first is a UTC
    instant or a local time. *)

Module JSDate.

Definition msPerDay : Z := 86400000.
Definition msPerHour : Z := 3600000.

Record TimeZone : Type := { LocalTZA : Z -> bool -> Z }.

Definition LocalTime (tz : TimeZone) (t : Z) : Z := t + LocalTZA tz t true.
Definition UTC (tz : TimeZone) (t : Z) : Z := t - LocalTZA tz t false.

(** [Day(t) = floor(t / msPerDay)], the number of the UTC day of [t]. *)
Definition Day (t : Z) : Z := t / msPerDay.

(** [d.toISOString().split('T')[0]]: the UTC calendar date of [d], kept as
    its day number. *)
Definition isoDate (t : Z) : Z := Day t.

(** [d.setDate(d.getDate() - 1)].  [getDate] and [setDate] work on the local
    time of [d]: the new time value is
    [UTC(MakeDate(MakeDay(year, month, date - 1), TimeWithinDay(LocalTime(t))))],
    the local time one calendar day earlier at the same time of day, turned
    back into a UTC instant. *)
Definition setDate_yesterday (tz : TimeZone) (t : Z) : Z :=
  UTC tz (LocalTime tz t - msPerDay).

(** The day number of a date of the Gregorian calendar and the time value
    of a date and time of day in UTC, to write the instants of the examples
    the way [toISOString] prints them. *)
Definition dayOfDate (year month day : Z) : Z :=
  let y := if month <=? 2 then year - 1 else year in
  let era := y / 400 in
  let yoe := y - era * 400 in
  let mp := if month <=? 2 then month + 9 else month - 3 in
  let doy := (153 * mp + 2) / 5 + day - 1 in
  let doe := yoe * 365 + yoe / 4 - yoe / 100 + doy in
  era * 146097 + doe - 719468.

Definition instant (year month day hours minutes : Z) : Z :=
  dayOfDate year month day * msPerDay + hours * msPerHour + minutes * 60000.

(** A zone whose offset never changes. *)
Definition fixedZone (offset : Z) : TimeZone :=
  {| LocalTZA := fun _ _ => offset |}.

(** A zone that moves from [before] to [after] at the UTC instant
    [transition]; a local time is read with the offset [before] until the
    local time [transition + max before after] is reached, as the language
    asks for repeated or skipped local times. *)
Definition zoneWithTransition (transition before after : Z) : TimeZone :=
  {| LocalTZA := fun t isUTC =>
       if isUTC
       then if t <? transition then before else after
       else if t <? transition + Z.max before after then before else after |}.

(** US Eastern time around the end of daylight saving time in 2024: UTC-4
    until 2024-11-03T06:00:00Z, UTC-5 afterwards. *)
Definition usEastern2024 : TimeZone :=
  zoneWithTransition (instant 2024 11 3 6 0) (-4 * msPerHour) (-5 * msPerHour).

End JSDate.
Export JSDate.

(** ** App.tsx: the state of the component and [handleStop] *)

Module App.

Record State : Type := mkState
  { stats : UserStats.t;
    sessions : list Session.t;
    achievements : list Achievement.t;
    currentView : AppView;
    timerActive : bool;
    timerSeconds : Z;
    subject : string;
    showLevelUp : bool;
    geminiFeedback : option GeminiFeedback.t;
    loadingFeedback : bool }.

(** What the handler reads from outside the component.  The clock is read
    once: the [Date.now()] and [new Date()] calls of one run of the handler
    are taken to return the same instant. *)
Record Env : Type :=
  { confirm : string -> bool;
    Date_now : Z;
    timeZone : TimeZone;
    randomUUID : string;
    service : GeminiService.Env }.

(** What the handler does to the outside: the dialog it opens, the keys it
    writes to [localStorage] (through [setStats], [setSessions] and
    [setAchievements]) and the events of the feedback service. *)
Inductive Effect : Type :=
| Confirm (msg : string)
| SetItem (key : string)
| Service (e : GeminiService.Event).

(** The state on first launch, with nothing in [localStorage]. *)
Definition initialState : State :=
  {| stats := INITIAL_STATS;
     sessions := [];
     achievements := ACHIEVEMENTS_DATA;
     currentView := TIMER;
     timerActive := false;
     timerSeconds := 0;
     subject := "";
     showLevelUp := false;
     geminiFeedback := None;
     loadingFeedback := false |}.

(** *** Streak (lines 136-151) *)

Definition sameDate (a : option Z) (b : Z) : bool :=
  match a with
  | Some d => d =? b
  | None => false
  end.

Definition updateStreak (tz : TimeZone) (lastStudyDate : option Z)
    (now : Z) (streakDays : Z) : Z :=
  let today := isoDate now in
  let lastDate := option_map isoDate lastStudyDate in
  let newStreak := streakDays in
  if negb (sameDate lastDate today) then
    let yesterday := setDate_yesterday tz now in
    let yesterdayStr := isoDate yesterday in
    if sameDate lastDate yesterdayStr
    then newStreak + 1
    else 1
  else newStreak.

(** *** XP and level (lines 153-165) *)

Record LevelState : Type := mkLevelState
  { newXP : Z;
    newLevel : Z;
    newNextLevelXP : Z;
    didLevelUp : bool }.

(** [while (newXP >= newNextLevelXP) { ... }] *)
Fixpoint levelUpLoop (fuel : nat) (l : LevelState) : option LevelState :=
  if newXP l >=? newNextLevelXP l then
    match fuel with
    | O => None
    | S fuel' =>
        levelUpLoop fuel'
          {| newXP := newXP l - newNextLevelXP l;
             newLevel := newLevel l + 1;
             newNextLevelXP := calculateNextLevelXP (newLevel l + 1);
             didLevelUp := true |}
    end
  else Some l.

(** The state of the loop is well formed: the XP is not negative and the
    threshold is the positive value of the curve at the level. *)
Definition loopInv (l : LevelState) : Prop :=
  0 <= newXP l
  /\ 0 < newNextLevelXP l
  /\ newNextLevelXP l = calculateNextLevelXP (newLevel l).

Definition levelUp (fuel : nat) (stats : UserStats.t) (xpEarned : Z)
  : option LevelState :=
  levelUpLoop fuel
    {| newXP := UserStats.currentXP stats + xpEarned;
       newLevel := UserStats.level stats;
       newNextLevelXP := UserStats.nextLevelXP stats;
       didLevelUp := false |}.

(** *** Achievements (lines 182-188) *)

Definition holds (ach : Achievement.t)
    (updatedStats : UserStats.t) (updatedSessions : list Session.t) : bool :=
  match Achievement.condition ach with
  | Some condition => condition updatedStats updatedSessions
  | None => false
  end.

Definition checkAchievement (updatedStats : UserStats.t)
    (updatedSessions : list Session.t) (ach : Achievement.t) : Achievement.t :=
  if negb (Achievement.unlocked ach) && holds ach updatedStats updatedSessions
  then Achievement.unlock ach
  else ach.

Definition checkAchievements (updatedStats : UserStats.t)
    (updatedSessions : list Session.t) (achievements : list Achievement.t)
  : list Achievement.t :=
  map (checkAchievement updatedStats updatedSessions) achievements.

(** The evaluator run once per entry of [runs], each with its own stats and
    sessions. *)
Definition evaluations (runs : list (UserStats.t * list Session.t))
    (achievements : list Achievement.t) : list Achievement.t :=
  fold_left (fun achs run => checkAchievements (fst run) (snd run) achs)
    runs achievements.

(** *** The handler *)

(** [Math.ceil(timerSeconds / 60)] *)
Definition minutesOf (timerSeconds : Z) : Z :=
  Qceiling (inject_Z timerSeconds / inject_Z 60).

(** Lines 122-209: the session is built, the stats, the ledger and the
    achievements are updated and written, and the feedback is fetched. *)
Definition commitSession (fuel : nat) (env : Env) (st : State)
  : option (State * list Effect) :=
  let durationMinutes := minutesOf (timerSeconds st) in
  let xpEarned := durationMinutes * XP_PER_MINUTE in
  let newTotalMinutes := UserStats.totalStudyMinutes (stats st) + durationMinutes in
  let newSession :=
    Session.mk (randomUUID env)
      (Date_now env - timerSeconds st * 1000) (Date_now env)
      durationMinutes (subject st) xpEarned in
  let newStreak :=
    updateStreak (timeZone env) (UserStats.lastStudyDate (stats st))
      (Date_now env) (UserStats.streakDays (stats st)) in
  match levelUp fuel (stats st) xpEarned with
  | None => None
  | Some l =>
      let updatedStats :=
        UserStats.mk (newLevel l) (newXP l) (newNextLevelXP l)
          newTotalMinutes newStreak (Some (Date_now env)) in
      let updatedSessions := newSession :: sessions st in
      let updatedAchievements :=
        checkAchievements updatedStats updatedSessions (achievements st) in
      let (events, feedback) :=
        GeminiService.getSessionFeedback (service env)
          durationMinutes (subject st) (newLevel l) in
      Some
        ({| stats := updatedStats;
            sessions := updatedSessions;
            achievements := updatedAchievements;
            currentView := currentView st;
            timerActive := false;
            timerSeconds := 0;
            subject := "";
            showLevelUp := if didLevelUp l then true else showLevelUp st;
            geminiFeedback :=
              match feedback with
              | Some f => Some f
              | None => geminiFeedback st
              end;
            loadingFeedback := false |},
         [SetItem "qf_stats"; SetItem "qf_sessions"; SetItem "qf_achievements"]
           ++ map Service events)
  end.

(** The text of the dialog. *)
Definition question : string := "Session is less than 1 minute. Discard it?".

(** Lines 112-120, then the rest. *)
Definition handleStop (fuel : nat) (env : Env) (st : State)
  : option (State * list Effect) :=
  if timerSeconds st <? 60 then
    if confirm env question then
      Some
        ({| stats := stats st;
            sessions := sessions st;
            achievements := achievements st;
            currentView := currentView st;
            timerActive := false;
            timerSeconds := 0;
            subject := subject st;
            showLevelUp := showLevelUp st;
            geminiFeedback := geminiFeedback st;
            loadingFeedback := loadingFeedback st |},
         [Confirm question])
    else
      match commitSession fuel env st with
      | Some (st', effects) => Some (st', Confirm question :: effects)
      | None => None
      end
  else commitSession fuel env st.

Definition isSetItem (e : Effect) : bool :=
  match e with SetItem _ => true | _ => false end.

Definition isServiceEvent (e : Effect) : bool :=
  match e with Service _ => true | _ => false end.

End App.
Export App.

(** ** Concrete surroundings and states used in the examples *)

Module Scenarios.

Import GeminiService.

(** No credential in the environment. *)
Definition noKey : GeminiService.Env :=
  {| API_KEY := None;
     generateContent := fun _ _ => CallReturns (Some "{}"%string);
     JSON_parse := fun _ => ParseValue None |}.

(** A credential, and a model call that throws. *)
Definition callFails : GeminiService.Env :=
  {| API_KEY := Some "key"%string;
     generateContent := fun _ _ => CallThrows;
     JSON_parse := fun _ => ParseValue None |}.

(** A credential, and a response that is not JSON. *)
Definition notJSON : GeminiService.Env :=
  {| API_KEY := Some "key"%string;
     generateContent := fun _ _ => CallReturns (Some "<html>"%string);
     JSON_parse := fun _ => ParseThrows |}.



(** The user answers the dialog with [answer]; it is 2024-01-02T12:00:00Z in
    a zone at UTC. *)
Definition envAnswering (answer : bool) : App.Env :=
  {| confirm := fun _ => answer;
     Date_now := instant 2024 1 2 12 0;
     timeZone := fixedZone 0;
     randomUUID := "00000000-0000-4000-8000-000000000000";
     service := noKey |}.

(** The timer has run for [seconds] on [subject]. *)
Definition timed (seconds : Z) (subject : string) (st : State) : State :=
  {| stats := stats st;
     sessions := sessions st;
     achievements := achievements st;
     currentView := currentView st;
     timerActive := true;
     timerSeconds := seconds;
     subject := subject;
     showLevelUp := showLevelUp st;
     geminiFeedback := geminiFeedback st;
     loadingFeedback := loadingFeedback st |}.

(** The state in which only the stats are of interest. *)
Definition withStats (stats : UserStats.t) (st : State) : State :=
  {| stats := stats;
     sessions := sessions st;
     achievements := achievements st;
     currentView := currentView st;
     timerActive := timerActive st;
     timerSeconds := timerSeconds st;
     subject := subject st;
     showLevelUp := showLevelUp st;
     geminiFeedback := geminiFeedback st;
     loadingFeedback := loadingFeedback st |}.

(** 2024-11-04T00:30:00Z, which is 19:30 on 3 November in US Eastern time,
    and 2024-11-03T15:00:00Z, 10:00 of the same local day. *)
Definition nov4_0030Z : Z := instant 2024 11 4 0 30.
Definition nov3_1500Z : Z := instant 2024 11 3 15 0.

End Scenarios.
Export Scenarios.

(** ** Measures of the progression, used to state what the handler keeps *)

Module Progress.



Definition ledgerMinutes (sessions : list Session.t) : Z :=
  fold_right (fun s total => Session.durationMinutes s + total) 0 sessions.




(** The timer shows [seconds] on [subject] when it is stopped in the
    surroundings [env]. *)
Record Stop : Type :=
  { stop_env : App.Env; stop_seconds : Z; stop_subject : string }.

Definition timedFor (e : Stop) (st : State) : State :=
  {| stats := stats st;
     sessions := sessions st;
     achievements := achievements st;
     currentView := currentView st;
     timerActive := true;
     timerSeconds := stop_seconds e;
     subject := stop_subject e;
     showLevelUp := showLevelUp st;
     geminiFeedback := geminiFeedback st;
     loadingFeedback := loadingFeedback st |}.

(** The same surroundings with another feedback service. *)
Definition withService (service : GeminiService.Env) (env : App.Env)
  : App.Env :=
  {| confirm := confirm env;
     Date_now := Date_now env;
     timeZone := timeZone env;
     randomUUID := randomUUID env;
     service := service |}.


(** One stop after the other. *)
Fixpoint stops (fuel : nat) (events : list Stop) (st : State) : option State :=
  match events with
  | [] => Some st
  | e :: rest =>
      match handleStop fuel (stop_env e) (timedFor e st) with
      | Some (st', _) => stops fuel rest st'
      | None => None
      end
  end.

End Progress.
Export Progress.

(** ** App.tsx: the [useLocalStorage] hook and what survives a reload

    The content of a key is kept as the value that [JSON.parse] makes of it.
    [JSON.stringify] leaves out the properties whose value is a function, so
    an achievement comes back without its [condition]; numbers and strings
    come back as they were. *)

Module Storage.

Inductive Item (T : Type) : Type :=
| Absent                (* [getItem] gives [null] or the empty string *)
| Malformed             (* [getItem] or [JSON.parse] throws *)
| Stored (value : T).

Arguments Absent {T}.
Arguments Malformed {T}.
Arguments Stored {T} value.

(** The initializer of [useState] in the hook (lines 37-45). *)
Definition storedValue {T : Type} (item : Item T) (initialValue : T) : T :=
  match item with
  | Stored value => value
  | Absent => initialValue
  | Malformed => initialValue
  end.

(** [setValue] (lines 47-54) as far as the store goes: the item is replaced
    unless [setItem] throws, which the hook catches. *)
Definition setItem {T : Type} (throws : bool) (json : T) (item : Item T)
  : Item T :=
  if throws then item else Stored json.

Record LocalStorage : Type :=
  { qf_stats : Item UserStats.t;
    qf_sessions : Item (list Session.t);
    qf_achievements : Item (list Achievement.t) }.

Definition emptyStorage : LocalStorage :=
  {| qf_stats := Absent; qf_sessions := Absent; qf_achievements := Absent |}.

(** What [JSON.parse(JSON.stringify(ach))] is. *)
Definition reloaded (ach : Achievement.t) : Achievement.t :=
  Achievement.mk (Achievement.id ach) (Achievement.title ach)
    (Achievement.description ach) (Achievement.icon ach)
    (Achievement.unlocked ach) None.

(** The writes of one run of the handler: each [SetItem] of its log stores
    the part of the new state that the setter was given.  [throws] says for
    which keys [setItem] fails. *)
Definition write (throws : string -> bool) (st : State)
    (ls : LocalStorage) (e : Effect) : LocalStorage :=
  match e with
  | SetItem key =>
      if String.eqb key "qf_stats" then
        {| qf_stats := setItem (throws key) (stats st) (qf_stats ls);
           qf_sessions := qf_sessions ls;
           qf_achievements := qf_achievements ls |}
      else if String.eqb key "qf_sessions" then
        {| qf_stats := qf_stats ls;
           qf_sessions := setItem (throws key) (sessions st) (qf_sessions ls);
           qf_achievements := qf_achievements ls |}
      else if String.eqb key "qf_achievements" then
        {| qf_stats := qf_stats ls;
           qf_sessions := qf_sessions ls;
           qf_achievements :=
             setItem (throws key) (map reloaded (achievements st))
               (qf_achievements ls) |}
      else ls
  | _ => ls
  end.

Definition persist (throws : string -> bool) (st : State)
    (log : list Effect) (ls : LocalStorage) : LocalStorage :=
  fold_left (write throws st) log ls.

(** The state of the component when the page is loaded (lines 61-75). *)
Definition launch (ls : LocalStorage) : State :=
  {| stats := storedValue (qf_stats ls) INITIAL_STATS;
     sessions := storedValue (qf_sessions ls) [];
     achievements := storedValue (qf_achievements ls) ACHIEVEMENTS_DATA;
     currentView := TIMER;
     timerActive := false;
     timerSeconds := 0;
     subject := "";
     showLevelUp := false;
     geminiFeedback := None;
     loadingFeedback := false |}.

(** One stop of the timer with its writes, from a state and a store. *)
Definition stopAndPersist (fuel : nat) (env : App.Env)
    (throws : string -> bool) (st : State) (ls : LocalStorage)
  : option (State * LocalStorage) :=
  match handleStop fuel env st with
  | Some (st', log) => Some (st', persist throws st' log ls)
  | None => None
  end.

End Storage.
Export Storage.

(** ** App.tsx: the timer (lines 77-110) *)

Module Timer.

(** The refs of the component; [intervalRef] holds an interval while the
    timer runs. *)
Record Refs : Type :=
  { intervalRef : option Z;
    startTimeRef : option Z }.

(** What [handleStart] reads from outside: [String.prototype.trim]. *)
Record StartEnv : Type := { trim : string -> string }.

Inductive StartEffect : Type := Alert (msg : string).

Definition isEmpty (s : string) : bool :=
  match s with
  | EmptyString => true
  | String _ _ => false
  end.

Definition handleStart (env : StartEnv) (st : State)
  : State * list StartEffect :=
  if isEmpty (trim env (subject st)) then
    (st, [Alert "Please enter a subject quest before starting!"])
  else
    ({| stats := stats st;
        sessions := sessions st;
        achievements := achievements st;
        currentView := currentView st;
        timerActive := true;
        timerSeconds := timerSeconds st;
        subject := subject st;
        showLevelUp := showLevelUp st;
        geminiFeedback := None;
        loadingFeedback := loadingFeedback st |}, []).

Definition handlePause (st : State) : State :=
  {| stats := stats st;
     sessions := sessions st;
     achievements := achievements st;
     currentView := currentView st;
     timerActive := false;
     timerSeconds := timerSeconds st;
     subject := subject st;
     showLevelUp := showLevelUp st;
     geminiFeedback := geminiFeedback st;
     loadingFeedback := loadingFeedback st |}.

(** The effect that runs when [timerActive] has changed, at the instant
    [now]; [interval] is the handle that [setInterval] returns. *)
Definition timerEffect (now interval : Z) (st : State) (refs : Refs) : Refs :=
  if timerActive st then
    {| intervalRef := Some interval;
       startTimeRef := Some (now - timerSeconds st * 1000) |}
  else refs.

(** [startTimeRef.current || 0] *)
Definition startOrZero (refs : Refs) : Z :=
  match startTimeRef refs with
  | Some start => start
  | None => 0
  end.

(** The callback of the interval, run at the instant [now]. *)
Definition tick (refs : Refs) (st : State) (now : Z) : State :=
  {| stats := stats st;
     sessions := sessions st;
     achievements := achievements st;
     currentView := currentView st;
     timerActive := timerActive st;
     timerSeconds := (now - startOrZero refs) / 1000;
     subject := subject st;
     showLevelUp := showLevelUp st;
     geminiFeedback := geminiFeedback st;
     loadingFeedback := loadingFeedback st |}.

(** The callback run at each of [times] in turn. *)
Definition ticks (refs : Refs) (st : State) (times : list Z) : State :=
  fold_left (tick refs) times st.

End Timer.
Export Timer.

(** ** components/TimerDisplay.tsx *)

Module TimerDisplay.

(** [n.toString()] for an integer. *)
Definition toString (n : Z) : string :=
  DecimalString.NilZero.string_of_int (Z.to_int n).

Fixpoint repeat0 (count : nat) : string :=
  match count with
  | O => EmptyString
  | S count' => String "0"%char (repeat0 count')
  end.

(** [s.padStart(2, '0')] *)
Definition padStart2 (s : string) : string :=
  (repeat0 (2 - String.length s) ++ s)%string.

Definition pad (n : Z) : string := padStart2 (toString n).

(** [%] keeps the sign of the dividend, [Math.floor] rounds down. *)
Definition hrs (seconds : Z) : Z := seconds / 3600.
Definition mins (seconds : Z) : Z := Z.rem seconds 3600 / 60.
Definition secs (seconds : Z) : Z := Z.rem seconds 60.

(** The text of the clock. *)
Definition clockText (seconds : Z) : string :=
  ((if hrs seconds >? 0 then pad (hrs seconds) ++ ":" else "")
   ++ pad (mins seconds) ++ ":" ++ pad (secs seconds))%string.

End TimerDisplay.

(** ** components/ProgressBar.tsx *)

Module ProgressBar.


End ProgressBar.

(** ** App.tsx: the chart and the Total XP figure of the stats view
       (lines 276-323) *)

Module StatsView.

(** [d.setDate(d.getDate() - k)], in local time as [setDate_yesterday]. *)
Definition setDate_daysAgo (tz : TimeZone) (k : Z) (t : Z) : Z :=
  UTC tz (LocalTime tz t - k * msPerDay).

Definition last7Days (tz : TimeZone) (now : Z) : list Z :=
  map (fun i => isoDate (setDate_daysAgo tz (6 - Z.of_nat i) now)) (seq 0 7).

(** [new Date(date).toLocaleDateString('en-US', { weekday: 'short' })]: the
    date string is read as midnight UTC and the weekday is that of the local
    time; day 0 of the epoch was a Thursday. *)
Definition weekdayNames : list string :=
  ["Sun"; "Mon"; "Tue"; "Wed"; "Thu"; "Fri"; "Sat"]%string.

Definition WeekDay (t : Z) : Z := (Day t + 4) mod 7.

Definition weekdayShort (tz : TimeZone) (date : Z) : string :=
  nth (Z.to_nat (WeekDay (LocalTime tz (date * msPerDay)))) weekdayNames
    ""%string.

Record Bar : Type := { name : string; minutes : Z }.

Definition dayMinutes (sessions : list Session.t) (date : Z) : Z :=
  fold_left (fun acc curr => acc + Session.durationMinutes curr)
    (filter (fun s => isoDate (Session.startTime s) =? date) sessions) 0.

Definition chartData (tz : TimeZone) (now : Z) (sessions : list Session.t)
  : list Bar :=
  map (fun date =>
         {| name := weekdayShort tz date;
            minutes := dayMinutes sessions date |})
    (last7Days tz now).

(** The sum of the bars, and the sessions that started on one of the seven
    UTC days that end with the day of [now]. *)
Definition chartTotal (bars : list Bar) : Z :=
  fold_right (fun b total => minutes b + total) 0 bars.

Definition inLast7Days (now : Z) (s : Session.t) : bool :=
  (isoDate now - 6 <=? isoDate (Session.startTime s))
  && (isoDate (Session.startTime s) <=? isoDate now).


End StatsView.

(** * Properties *)

(** ** The leveling curve *)

Section Curve.

Lemma multiplier_nonzero : ~ LEVEL_MULTIPLIER == 0.
Proof. unfold LEVEL_MULTIPLIER, Qeq; simpl; lia. Qed.

Lemma curveQ_pos (level : Z) : (0 < curveQ level)%Q.
Proof.
  unfold curveQ.
  apply Qmult_lt_0_compat.
  - reflexivity.
  - apply Qpower_0_lt. reflexivity.
Qed.

Lemma curveQ_succ (level : Z) :
  curveQ (level + 1) == curveQ level * LEVEL_MULTIPLIER.
Proof.
  unfold curveQ.
  replace (level + 1 - 1) with ((level - 1) + 1) by lia.
  rewrite (Qpower_plus _ _ _ multiplier_nonzero).
  rewrite Qpower_1_r. ring.
Qed.

Lemma curveQ_base (level : Z) :
  1 <= level -> (inject_Z BASE_LEVEL_XP <= curveQ level)%Q.
Proof.
  intros H. unfold curveQ.
  rewrite <- (Qmult_1_r (inject_Z BASE_LEVEL_XP)) at 1.
  apply Qmult_le_l; [reflexivity|].
  apply Qpower_1_le; [unfold LEVEL_MULTIPLIER, Qle; simpl; lia | lia].
Qed.

Lemma calculateNextLevelXP_curveQ (level : Z) :
  calculateNextLevelXP level = Qfloor (curveQ level).
Proof. reflexivity. Qed.

Lemma calculateNextLevelXP_mono (level : Z) :
  calculateNextLevelXP level <= calculateNextLevelXP (level + 1).
Proof.
  rewrite !calculateNextLevelXP_curveQ.
  apply Qfloor_resp_le.
  rewrite curveQ_succ.
  rewrite <- (Qmult_1_r (curveQ level)) at 1.
  apply Qmult_le_l; [apply curveQ_pos|].
  unfold LEVEL_MULTIPLIER, Qle; simpl; lia.
Qed.


Lemma calculateNextLevelXP_step (level : Z) :
  1 <= level -> calculateNextLevelXP level + 100 <= calculateNextLevelXP (level + 1).
Proof.
  intros H. rewrite !calculateNextLevelXP_curveQ.
  rewrite <- (Qfloor_Z (Qfloor (curveQ level) + 100)).
  apply Qfloor_resp_le.
  rewrite curveQ_succ, inject_Z_plus.
  assert (Hb := curveQ_base level H).
  assert (Hf := Qfloor_le (curveQ level)).
  unfold LEVEL_MULTIPLIER.
  setoid_replace (curveQ level * (12 # 10))%Q
    with (curveQ level + curveQ level * (1 # 5))%Q by ring.
  apply Qplus_le_compat; [exact Hf|].
  setoid_replace (inject_Z 100) with (inject_Z BASE_LEVEL_XP * (1 # 5))%Q
    by reflexivity.
  apply Qmult_le_compat_r; [exact Hb | discriminate].
Qed.


Lemma calculateNextLevelXP_lt (a b : Z) :
  1 <= a -> a < b -> calculateNextLevelXP a < calculateNextLevelXP b.
Proof.
  intros Ha Hab.
  replace b with (a + 1 + Z.of_nat (Z.to_nat (b - a - 1))) by lia.
  induction (Z.to_nat (b - a - 1)) as [|n IH].
  - rewrite Z.add_0_r. pose proof (calculateNextLevelXP_step a Ha). lia.
  - replace (a + 1 + Z.of_nat (S n)) with (a + 1 + Z.of_nat n + 1) by lia.
    pose proof (calculateNextLevelXP_mono (a + 1 + Z.of_nat n)). lia.
Qed.



End Curve.

(** ** The level-up loop *)

Section LevelUp.

Lemma levelUpLoop_terminates (fuel : nat) :
  forall l : LevelState,
    loopInv l ->
    (Z.to_nat (newXP l) <= fuel)%nat ->
    exists r,
      levelUpLoop fuel l = Some r
      /\ 0 <= newXP r < newNextLevelXP r
      /\ newNextLevelXP r = calculateNextLevelXP (newLevel r)
      /\ newLevel l <= newLevel r
      /\ (didLevelUp r = true <-> didLevelUp l = true \/ newLevel l < newLevel r).
Proof.
  induction fuel as [|fuel IH]; intros l (Hxp & Hpos & Hcurve) Hfuel.
  - exists l. simpl.
    destruct (Z.geb_spec (newXP l) (newNextLevelXP l)); [lia|].
    repeat split; try lia; intuition lia.
  - simpl.
    destruct (Z.geb_spec (newXP l) (newNextLevelXP l)) as [Hge|Hlt].
    + pose proof (calculateNextLevelXP_mono (newLevel l)) as Hmono.
      destruct (IH {| newXP := newXP l - newNextLevelXP l;
                      newLevel := newLevel l + 1;
                      newNextLevelXP := calculateNextLevelXP (newLevel l + 1);
                      didLevelUp := true |})
        as (r & Hr & Hbound & Hc & Hlevel & Hflag).
      * unfold loopInv; simpl. repeat split; lia.
      * simpl. lia.
      * simpl in *. exists r. repeat split; try tauto; try lia.
    + exists l. repeat split; try lia; intuition lia.
Qed.


Lemma levelUpLoop_fuel_irrelevant (fuel fuel' : nat) :
  forall l r : LevelState,
    levelUpLoop fuel l = Some r -> (fuel <= fuel')%nat ->
    levelUpLoop fuel' l = Some r.
Proof.
  revert fuel'. induction fuel as [|fuel IH]; intros fuel' l r H Hle.
  - simpl in H. destruct fuel'; simpl;
      destruct (newXP l >=? newNextLevelXP l); congruence.
  - destruct fuel' as [|fuel']; [lia|]. simpl in *.
    destruct (newXP l >=? newNextLevelXP l); [|exact H].
    apply IH; [exact H | lia].
Qed.

Lemma levelUpLoop_done (fuel : nat) (l : LevelState) :
  newXP l < newNextLevelXP l -> levelUpLoop fuel l = Some l.
Proof.
  intros H. destruct fuel; simpl;
    destruct (Z.geb_spec (newXP l) (newNextLevelXP l)); auto; lia.
Qed.

Lemma levelUpLoop_step (fuel : nat) (l : LevelState) :
  newNextLevelXP l <= newXP l ->
  levelUpLoop (S fuel) l =
  levelUpLoop fuel
    {| newXP := newXP l - newNextLevelXP l;
       newLevel := newLevel l + 1;
       newNextLevelXP := calculateNextLevelXP (newLevel l + 1);
       didLevelUp := true |}.
Proof.
  intros H. simpl.
  destruct (Z.geb_spec (newXP l) (newNextLevelXP l)); [reflexivity | lia].
Qed.

(** The loop started by [levelUp] returns, and what it returns is well
    formed. *)
Lemma levelUp_total (stats : UserStats.t) (xpEarned : Z) :
  0 <= UserStats.currentXP stats < UserStats.nextLevelXP stats ->
  UserStats.nextLevelXP stats = calculateNextLevelXP (UserStats.level stats) ->
  0 <= xpEarned ->
  exists r : LevelState,
    (forall fuel : nat,
        (Z.to_nat (UserStats.currentXP stats + xpEarned) <= fuel)%nat ->
        levelUp fuel stats xpEarned = Some r)
    /\ 0 <= newXP r < newNextLevelXP r
    /\ newNextLevelXP r = calculateNextLevelXP (newLevel r).
Proof.
  intros Hxp Hcurve Hearned.
  set (l := {| newXP := UserStats.currentXP stats + xpEarned;
               newLevel := UserStats.level stats;
               newNextLevelXP := UserStats.nextLevelXP stats;
               didLevelUp := false |}).
  destruct (levelUpLoop_terminates (Z.to_nat (newXP l)) l)
    as (r & Hr & Hbound & Hc & _); [unfold loopInv; simpl; lia | lia |].
  exists r. repeat split; try lia; try exact Hc.
  intros fuel Hfuel. unfold levelUp. fold l.
  apply (levelUpLoop_fuel_irrelevant _ _ _ _ Hr Hfuel).
Qed.



End LevelUp.

(** ** The handler on concrete sessions *)

Section Rollover.

Lemma minutesOf_integer_form (timerSeconds : Z) :
  minutesOf timerSeconds = - (- timerSeconds / 60).
Proof.
  unfold minutesOf, Qceiling. f_equal.
  rewrite Zdiv_Qdiv. apply Qfloor_comp.
  rewrite inject_Z_opp. unfold Qdiv. ring.
Qed.

Lemma minutesOf_bounds (timerSeconds : Z) :
  timerSeconds <= 60 * minutesOf timerSeconds < timerSeconds + 60.
Proof.
  rewrite minutesOf_integer_form.
  pose proof (Z.div_mod (- timerSeconds) 60 ltac:(lia)).
  pose proof (Z.mod_pos_bound (- timerSeconds) 60 ltac:(lia)).
  lia.
Qed.

Lemma commitSession_stats (fuel : nat) (env : App.Env) (st : State) (l : LevelState) :
  levelUp fuel (stats st) (minutesOf (timerSeconds st) * XP_PER_MINUTE) = Some l ->
  exists st' log,
    commitSession fuel env st = Some (st', log)
    /\ stats st' =
       UserStats.mk (newLevel l) (newXP l) (newNextLevelXP l)
         (UserStats.totalStudyMinutes (stats st) + minutesOf (timerSeconds st))
         (updateStreak (timeZone env) (UserStats.lastStudyDate (stats st))
            (Date_now env) (UserStats.streakDays (stats st)))
         (Some (Date_now env))
    /\ sessions st' =
       Session.mk (randomUUID env)
         (Date_now env - timerSeconds st * 1000) (Date_now env)
         (minutesOf (timerSeconds st)) (subject st)
         (minutesOf (timerSeconds st) * XP_PER_MINUTE) :: sessions st
    /\ achievements st' = checkAchievements (stats st') (sessions st') (achievements st)
    /\ timerSeconds st' = 0
    /\ timerActive st' = false.
Proof.
  intros H. unfold commitSession. rewrite H.
  destruct (GeminiService.getSessionFeedback _ _ _ _) as [events feedback].
  eexists; eexists. split; [reflexivity|]. simpl. repeat split.
Qed.

Lemma handleStop_long (fuel : nat) (env : App.Env) (st : State) :
  60 <= timerSeconds st -> handleStop fuel env st = commitSession fuel env st.
Proof.
  intros H. unfold handleStop.
  destruct (Z.ltb_spec (timerSeconds st) 60); [lia | reflexivity].
Qed.

(** C2.  A session of 140 minutes is worth 1400 XP; from level 1 with
    [currentXP = 0] and [nextLevelXP = 500] the loop passes levels 1 and 2
    (thresholds 500 and 600) and stops at level 3 with [currentXP = 300] and
    [nextLevelXP = 720], in the loop and in the handler alike. *)
Theorem rollover_across_two_levels :
  minutesOf 8400 = 140
  /\ 140 * XP_PER_MINUTE = 1400
  /\ calculateNextLevelXP 2 = 600
  /\ calculateNextLevelXP 3 = 720
  /\ forall (fuel : nat) (total streak : Z) (last : option Z),
      levelUp (S (S fuel)) (UserStats.mk 1 0 500 total streak last) 1400
      = Some {| newXP := 300; newLevel := 3; newNextLevelXP := 720;
                didLevelUp := true |}
      /\ forall (env : App.Env) (st : State) (subject : string),
          exists st' log,
            handleStop (S (S fuel)) env
              (timed 8400 subject
                 (withStats (UserStats.mk 1 0 500 total streak last) st))
            = Some (st', log)
            /\ UserStats.level (stats st') = 3
            /\ UserStats.currentXP (stats st') = 300
            /\ UserStats.nextLevelXP (stats st') = 720.
Proof.
  assert (Hloop : forall fuel total streak last,
             levelUp (S (S fuel)) (UserStats.mk 1 0 500 total streak last) 1400
             = Some {| newXP := 300; newLevel := 3; newNextLevelXP := 720;
                       didLevelUp := true |}).
  { intros fuel total streak last. unfold levelUp. simpl UserStats.currentXP.
    rewrite levelUpLoop_step by (simpl; lia).
    rewrite levelUpLoop_step by (vm_compute; discriminate).
    apply levelUpLoop_done. vm_compute. reflexivity. }
  repeat split; try reflexivity; try apply Hloop.
  intros env st subject.
  rewrite handleStop_long by (simpl; lia).
  destruct (commitSession_stats (S (S fuel)) env
              (timed 8400 subject
                 (withStats (UserStats.mk 1 0 500 total streak last) st))
              {| newXP := 300; newLevel := 3; newNextLevelXP := 720;
                 didLevelUp := true |})
    as (st' & log & Hrun & Hstats & _).
  - apply Hloop.
  - exists st', log. rewrite Hstats. simpl. auto.
Qed.

Lemma updateStreak_first (tz : TimeZone) (now streakDays : Z) :
  updateStreak tz None now streakDays = 1.
Proof. reflexivity. Qed.

(** C7.  On first launch, stopping a timer that ran 65 minutes on subject
    [X] records one session with [durationMinutes = 65] and [xpEarned = 650],
    leaves [totalStudyMinutes = 65], level 2 with [currentXP = 150] and
    [nextLevelXP = 600], and unlocks [first_step] and [deep_work] and nothing
    else. *)
Theorem first_session_of_65_minutes :
  forall (fuel : nat) (env : App.Env),
  exists st' log,
    handleStop (S fuel) env (timed 3900 "X" initialState) = Some (st', log)
    /\ map (fun s => (Session.durationMinutes s, Session.xpEarned s,
                      Session.subject s)) (sessions st')
       = [(65, 650, "X"%string)]
    /\ stats st' = UserStats.mk 2 150 600 65 1 (Some (Date_now env))
    /\ map (fun a => (Achievement.id a, Achievement.unlocked a))
         (achievements st')
       = [("first_step", true); ("dedicated", false); ("streak_3", false);
          ("deep_work", true); ("master", false)]%string.
Proof.
  intros fuel env.
  rewrite handleStop_long by (simpl; lia).
  destruct (commitSession_stats (S fuel) env (timed 3900 "X" initialState)
              {| newXP := 150; newLevel := 2; newNextLevelXP := 600;
                 didLevelUp := true |})
    as (st' & log & Hrun & Hstats & Hsessions & Hach & _).
  - unfold levelUp. simpl UserStats.currentXP.
    rewrite levelUpLoop_step by (vm_compute; discriminate).
    apply levelUpLoop_done. vm_compute. reflexivity.
  - exists st', log. split; [exact Hrun|].
    rewrite Hach, Hsessions, Hstats. simpl stats. simpl sessions.
    rewrite updateStreak_first.
    repeat split.
Qed.

End Rollover.

(** ** The streak *)

Section Streak.

(** The instants of the examples, as time values. *)
Lemma instant_examples :
  instant 1970 1 1 0 0 = 0
  /\ instant 2024 1 2 12 0 = 1704196800000
  /\ instant 2024 11 3 6 0 = 1730613600000
  /\ instant 2024 11 4 0 30 = 1730680200000.
Proof. repeat split. Qed.

Lemma isoDate_instant (year month day hours minutes : Z) :
  0 <= hours * msPerHour + minutes * 60000 < msPerDay ->
  isoDate (instant year month day hours minutes) = dayOfDate year month day.
Proof.
  intros H. unfold isoDate, Day, instant.
  rewrite <- Z.add_assoc, Z.add_comm, Z.div_add by (unfold msPerDay; lia).
  rewrite Z.div_small by exact H. lia.
Qed.

Lemma isoDate_day_before (t : Z) : isoDate (t - msPerDay) = isoDate t - 1.
Proof.
  unfold isoDate, Day, msPerDay.
  replace (t - 86400000) with (t + (-1) * 86400000) by lia.
  rewrite Z.div_add by lia. lia.
Qed.

(** When the local time one day earlier has the offset of the present
    instant, stepping back a local day is stepping back 24 hours. *)
Lemma setDate_yesterday_same_offset (tz : TimeZone) (t : Z) :
  LocalTZA tz (LocalTime tz t - msPerDay) false = LocalTZA tz t true ->
  setDate_yesterday tz t = t - msPerDay.
Proof.
  intros H. unfold setDate_yesterday, UTC. rewrite H.
  unfold LocalTime. lia.
Qed.

(** Then the three cases of the streak rule are those of the UTC calendar
    dates: same date, the date before, anything else. *)
Lemma updateStreak_same_offset (tz : TimeZone) (last : option Z)
    (now streakDays : Z) :
  LocalTZA tz (LocalTime tz now - msPerDay) false = LocalTZA tz now true ->
  updateStreak tz last now streakDays =
  match last with
  | Some t =>
      if isoDate t =? isoDate now then streakDays
      else if isoDate t =? isoDate now - 1 then streakDays + 1
      else 1
  | None => 1
  end.
Proof.
  intros H. unfold updateStreak.
  rewrite (setDate_yesterday_same_offset tz now H), isoDate_day_before.
  destruct last as [t|]; simpl; [|reflexivity].
  destruct (isoDate t =? isoDate now); reflexivity.
Qed.

(** In particular in every zone whose offset never changes. *)
Lemma updateStreak_fixed_offset (offset : Z) (last : option Z)
    (now streakDays : Z) :
  updateStreak (fixedZone offset) last now streakDays =
  match last with
  | Some t =>
      if isoDate t =? isoDate now then streakDays
      else if isoDate t =? isoDate now - 1 then streakDays + 1
      else 1
  | None => 1
  end.
Proof. apply updateStreak_same_offset. reflexivity. Qed.

(** The examples of the rule: 1 to 2 January 2024, twice on 1 January, and
    1 to 5 January, at noon UTC. *)
Lemma updateStreak_examples (streakDays : Z) :
  updateStreak (fixedZone 0)
    (Some (instant 2024 1 1 12 0)) (instant 2024 1 2 12 0) streakDays
  = streakDays + 1
  /\ updateStreak (fixedZone 0)
       (Some (instant 2024 1 1 12 0)) (instant 2024 1 1 12 0) streakDays
     = streakDays
  /\ updateStreak (fixedZone 0)
       (Some (instant 2024 1 1 12 0)) (instant 2024 1 5 12 0) streakDays
     = 1.
Proof. repeat split. Qed.

(** C3, at a daylight-saving change.  At 2024-11-04T00:30:00Z in US Eastern
    time the local clock shows 19:30 on 3 November; one local day earlier is
    19:30 on 2 November, still on daylight time, that is 23:30 UTC on
    2 November.  So [yesterdayStr] is the date two days before [today], a
    last session on the UTC day just before [today] does not match it, and
    the streak 2 becomes 1 where the rule asks for 3. *)
Theorem updateStreak_across_dst_change :
  isoDate nov4_0030Z = dayOfDate 2024 11 4
  /\ option_map isoDate (Some nov3_1500Z) = Some (dayOfDate 2024 11 3)
  /\ dayOfDate 2024 11 3 = dayOfDate 2024 11 4 - 1
  /\ LocalTime usEastern2024 nov4_0030Z = instant 2024 11 3 19 30
  /\ setDate_yesterday usEastern2024 nov4_0030Z = instant 2024 11 2 23 30
  /\ isoDate (setDate_yesterday usEastern2024 nov4_0030Z)
     = dayOfDate 2024 11 2
  /\ updateStreak usEastern2024 (Some nov3_1500Z) nov4_0030Z 2 = 1.
Proof. repeat split. Qed.

End Streak.

(** ** The discard gate *)

Section Discard.

Lemma minutesOf_positive (timerSeconds : Z) :
  1 <= timerSeconds -> 1 <= minutesOf timerSeconds.
Proof. pose proof (minutesOf_bounds timerSeconds). lia. Qed.

Lemma minutesOf_nonneg (timerSeconds : Z) :
  0 <= timerSeconds -> 0 <= minutesOf timerSeconds.
Proof. pose proof (minutesOf_bounds timerSeconds). lia. Qed.

Lemma commitSession_appends (fuel : nat) (env : App.Env) (st st' : State)
    (log : list Effect) :
  commitSession fuel env st = Some (st', log) ->
  exists s,
    sessions st' = s :: sessions st
    /\ Session.durationMinutes s = minutesOf (timerSeconds st)
    /\ Session.xpEarned s = minutesOf (timerSeconds st) * XP_PER_MINUTE.
Proof.
  intros H.
  destruct (levelUp fuel (stats st) (minutesOf (timerSeconds st) * XP_PER_MINUTE))
    as [l|] eqn:Hl.
  - destruct (commitSession_stats fuel env st l Hl)
      as (st1 & log1 & Hrun & _ & Hsessions & _).
    rewrite Hrun in H. injection H as <- <-.
    eexists. split; [exact Hsessions|]. split; reflexivity.
  - unfold commitSession in H. rewrite Hl in H. discriminate.
Qed.

Lemma commitSession_returns (env : App.Env) (st : State) :
  0 <= timerSeconds st ->
  0 <= UserStats.currentXP (stats st) < UserStats.nextLevelXP (stats st) ->
  UserStats.nextLevelXP (stats st)
  = calculateNextLevelXP (UserStats.level (stats st)) ->
  exists fuel st' log,
    commitSession fuel env st = Some (st', log)
    /\ 0 <= UserStats.currentXP (stats st') < UserStats.nextLevelXP (stats st')
    /\ UserStats.nextLevelXP (stats st')
       = calculateNextLevelXP (UserStats.level (stats st')).
Proof.
  intros Ht Hxp Hcurve.
  pose proof (minutesOf_nonneg _ Ht) as Hm.
  destruct (levelUp_total (stats st) (minutesOf (timerSeconds st) * XP_PER_MINUTE))
    as (r & Hr & Hbound & Hc); [exact Hxp | exact Hcurve | unfold XP_PER_MINUTE; lia |].
  set (fuel := Z.to_nat (UserStats.currentXP (stats st)
                         + minutesOf (timerSeconds st) * XP_PER_MINUTE)).
  destruct (commitSession_stats fuel env st r (Hr fuel (Nat.le_refl _)))
    as (st' & log & Hrun & Hstats & _).
  exists fuel, st', log. rewrite Hstats. simpl. auto.
Qed.

Lemma handleStop_confirmed (fuel : nat) (env : App.Env) (st : State) :
  timerSeconds st < 60 ->
  confirm env question = true ->
  handleStop fuel env st =
  Some
    ({| stats := stats st;
        sessions := sessions st;
        achievements := achievements st;
        currentView := currentView st;
        timerActive := false;
        timerSeconds := 0;
        subject := subject st;
        showLevelUp := showLevelUp st;
        geminiFeedback := geminiFeedback st;
        loadingFeedback := loadingFeedback st |},
     [Confirm question]).
Proof.
  intros Ht Hc. unfold handleStop.
  destruct (Z.ltb_spec (timerSeconds st) 60); [|lia].
  rewrite Hc. reflexivity.
Qed.

Lemma handleStop_declined (fuel : nat) (env : App.Env) (st : State) :
  timerSeconds st < 60 ->
  confirm env question = false ->
  handleStop fuel env st =
  match commitSession fuel env st with
  | Some (st', effects) => Some (st', Confirm question :: effects)
  | None => None
  end.
Proof.
  intros Ht Hc. unfold handleStop.
  destruct (Z.ltb_spec (timerSeconds st) 60); [|lia].
  rewrite Hc. reflexivity.
Qed.

(** What the handler leaves behind when it ran the engine on the session. *)
Lemma handleStop_cases (fuel : nat) (env : App.Env) (st st' : State)
    (log : list Effect) :
  handleStop fuel env st = Some (st', log) ->
  (timerSeconds st < 60 /\ confirm env question = true
   /\ sessions st' = sessions st /\ stats st' = stats st
   /\ achievements st' = achievements st)
  \/ ((60 <= timerSeconds st \/ confirm env question = false)
      /\ exists s,
          sessions st' = s :: sessions st
          /\ Session.durationMinutes s = minutesOf (timerSeconds st)
          /\ (1 <= timerSeconds st -> 1 <= Session.durationMinutes s)).
Proof.
  intros H.
  destruct (Z.lt_ge_cases (timerSeconds st) 60) as [Hshort|Hlong].
  - destruct (confirm env question) eqn:Hc.
    + rewrite (handleStop_confirmed fuel env st Hshort Hc) in H.
      injection H as <- <-. left. simpl. auto.
    + rewrite (handleStop_declined fuel env st Hshort Hc) in H.
      destruct (commitSession fuel env st) as [[st1 log1]|] eqn:Hrun;
        [|discriminate].
      injection H as <- <-.
      destruct (commitSession_appends _ _ _ _ _ Hrun) as (s & Hs & Hd & _).
      right. split; [now right|]. exists s. repeat split; auto.
      intros H1. rewrite Hd. now apply minutesOf_positive.
  - rewrite (handleStop_long fuel env st Hlong) in H.
    destruct (commitSession_appends _ _ _ _ _ H) as (s & Hs & Hd & _).
    right. split; [now left|]. exists s. repeat split; auto.
    intros H1. rewrite Hd. now apply minutesOf_positive.
Qed.

Lemma handleStop_returns (env : App.Env) (st : State) :
  0 <= timerSeconds st ->
  0 <= UserStats.currentXP (stats st) < UserStats.nextLevelXP (stats st) ->
  UserStats.nextLevelXP (stats st)
  = calculateNextLevelXP (UserStats.level (stats st)) ->
  exists fuel st' log, handleStop fuel env st = Some (st', log).
Proof.
  intros Ht Hxp Hcurve.
  destruct (commitSession_returns env st Ht Hxp Hcurve)
    as (fuel & st' & log & Hrun & _).
  destruct (Z.lt_ge_cases (timerSeconds st) 60) as [Hshort|Hlong].
  - destruct (confirm env question) eqn:Hc.
    + exists fuel. rewrite (handleStop_confirmed fuel env st Hshort Hc).
      eauto.
    + exists fuel. rewrite (handleStop_declined fuel env st Hshort Hc), Hrun.
      eauto.
  - exists fuel. rewrite (handleStop_long fuel env st Hlong), Hrun. eauto.
Qed.

(** C4 as stated fails: the user declines the dialog after 30 seconds, and
    the engine records a session of one minute worth 10 XP. *)
Lemma declined_short_session_is_processed :
  timerSeconds (timed 30 "X" initialState) < 60
  /\ option_map
       (fun r =>
          (map (fun s => (Session.durationMinutes s, Session.xpEarned s))
             (sessions (fst r)),
           UserStats.currentXP (stats (fst r)),
           UserStats.totalStudyMinutes (stats (fst r))))
       (handleStop 0 (envAnswering false) (timed 30 "X" initialState))
     = Some ([(1, 10)], 10, 1).
Proof. split; reflexivity. Qed.

(** C4, amended.  A stop is discarded before the engine exactly when fewer
    than 60 seconds elapsed and the user confirms the dialog; otherwise (60
    seconds or more, or the user declines) the engine records a session with
    [durationMinutes = ceil(timerSeconds / 60)], which is at least 1 as soon
    as one second elapsed.  On well-formed stats the handler does return. *)
Theorem handleStop_discards_on_confirmation_only :
  forall (env : App.Env) (st : State),
    (forall (fuel : nat) (st' : State) (log : list Effect),
        handleStop fuel env st = Some (st', log) ->
        (timerSeconds st < 60 /\ confirm env question = true
         /\ sessions st' = sessions st /\ stats st' = stats st
         /\ achievements st' = achievements st)
        \/ ((60 <= timerSeconds st \/ confirm env question = false)
            /\ exists s,
                sessions st' = s :: sessions st
                /\ Session.durationMinutes s = minutesOf (timerSeconds st)
                /\ (1 <= timerSeconds st -> 1 <= Session.durationMinutes s)))
    /\ (0 <= timerSeconds st ->
        0 <= UserStats.currentXP (stats st) < UserStats.nextLevelXP (stats st) ->
        UserStats.nextLevelXP (stats st)
        = calculateNextLevelXP (UserStats.level (stats st)) ->
        exists fuel st' log, handleStop fuel env st = Some (st', log)).
Proof.
  intros env st. split.
  - intros fuel st' log. apply handleStop_cases.
  - apply handleStop_returns.
Qed.

Lemma handleStop_discards_on_confirmation_only_witness :
  (exists st' log,
      handleStop 0 (envAnswering false) (timed 30 "X" initialState)
      = Some (st', log)
      /\ ((timerSeconds (timed 30 "X" initialState) < 60
           /\ confirm (envAnswering false) question = true
           /\ sessions st' = sessions (timed 30 "X" initialState)
           /\ stats st' = stats (timed 30 "X" initialState)
           /\ achievements st' = achievements (timed 30 "X" initialState))
          \/ ((60 <= timerSeconds (timed 30 "X" initialState)
               \/ confirm (envAnswering false) question = false)
              /\ exists s,
                  sessions st' = s :: sessions (timed 30 "X" initialState)
                  /\ Session.durationMinutes s
                     = minutesOf (timerSeconds (timed 30 "X" initialState))
                  /\ (1 <= timerSeconds (timed 30 "X" initialState) ->
                      1 <= Session.durationMinutes s))))
  /\ exists fuel st' log,
      handleStop fuel (envAnswering false) (timed 30 "X" initialState)
      = Some (st', log).
Proof.
  destruct (handleStop_discards_on_confirmation_only
              (envAnswering false) (timed 30 "X" initialState))
    as [Hcases Hreturns].
  split.
  - eexists. eexists. split; [reflexivity|].
    eapply (Hcases 0%nat). reflexivity.
  - apply Hreturns.
    + simpl. lia.
    + simpl. unfold BASE_LEVEL_XP. lia.
    + reflexivity.
Defined.

(** C9.  When fewer than 60 seconds elapsed and the user confirms the
    dialog, the handler opens the dialog and does nothing else outside the
    component: no key is written and the service is not called.  The stats,
    the ledger and the achievements are those it started with, whatever the
    conditions of the achievements say; the elapsed seconds are 0, the timer
    is stopped, and the rest of the state is unchanged. *)
Theorem discarded_stop_commits_nothing :
  forall (fuel : nat) (env : App.Env) (st : State),
    timerSeconds st < 60 ->
    confirm env question = true ->
    exists st' log,
      handleStop fuel env st = Some (st', log)
      /\ log = [Confirm question]
      /\ existsb isSetItem log = false
      /\ existsb isServiceEvent log = false
      /\ sessions st' = sessions st
      /\ stats st' = stats st
      /\ achievements st' = achievements st
      /\ timerSeconds st' = 0
      /\ timerActive st' = false
      /\ subject st' = subject st
      /\ currentView st' = currentView st
      /\ showLevelUp st' = showLevelUp st
      /\ geminiFeedback st' = geminiFeedback st
      /\ loadingFeedback st' = loadingFeedback st.
Proof.
  intros fuel env st Ht Hc.
  rewrite (handleStop_confirmed fuel env st Ht Hc).
  eexists. eexists. split; [reflexivity|]. simpl. repeat split.
Qed.

Lemma discarded_stop_commits_nothing_witness :
  exists st' log,
    handleStop 0 (envAnswering true) (timed 30 "X" initialState)
    = Some (st', log)
    /\ log = [Confirm question]
    /\ existsb isSetItem log = false
    /\ existsb isServiceEvent log = false
    /\ sessions st' = sessions (timed 30 "X" initialState)
    /\ stats st' = stats (timed 30 "X" initialState)
    /\ achievements st' = achievements (timed 30 "X" initialState)
    /\ timerSeconds st' = 0
    /\ timerActive st' = false
    /\ subject st' = subject (timed 30 "X" initialState)
    /\ currentView st' = currentView (timed 30 "X" initialState)
    /\ showLevelUp st' = showLevelUp (timed 30 "X" initialState)
    /\ geminiFeedback st' = geminiFeedback (timed 30 "X" initialState)
    /\ loadingFeedback st' = loadingFeedback (timed 30 "X" initialState).
Proof.
  apply (discarded_stop_commits_nothing 0 (envAnswering true)
           (timed 30 "X" initialState)).
  - simpl. lia.
  - reflexivity.
Defined.

End Discard.

(** ** The achievement evaluator *)

Section Achievements.

Lemma checkAchievement_unlocked (updatedStats : UserStats.t)
    (updatedSessions : list Session.t) (ach : Achievement.t) :
  Achievement.unlocked ach = true ->
  checkAchievement updatedStats updatedSessions ach = ach.
Proof. intros H. unfold checkAchievement. rewrite H. reflexivity. Qed.

Lemma checkAchievements_keeps (updatedStats : UserStats.t)
    (updatedSessions : list Session.t) (achievements : list Achievement.t)
    (i : nat) (ach : Achievement.t) :
  nth_error achievements i = Some ach ->
  Achievement.unlocked ach = true ->
  nth_error (checkAchievements updatedStats updatedSessions achievements) i
  = Some ach.
Proof.
  intros Hi Hu. unfold checkAchievements.
  rewrite nth_error_map, Hi. simpl.
  now rewrite checkAchievement_unlocked.
Qed.

Lemma evaluations_keep (runs : list (UserStats.t * list Session.t)) :
  forall (achievements : list Achievement.t) (i : nat) (ach : Achievement.t),
    nth_error achievements i = Some ach ->
    Achievement.unlocked ach = true ->
    nth_error (evaluations runs achievements) i = Some ach.
Proof.
  induction runs as [|[stats sessions] runs IH]; intros achs i ach Hi Hu.
  - exact Hi.
  - simpl. apply IH; [|exact Hu].
    now apply checkAchievements_keeps.
Qed.

(** The flag of an entry after one evaluation: it was set, or the entry has
    a condition and the condition holds. *)
Lemma checkAchievement_flag (updatedStats : UserStats.t)
    (updatedSessions : list Session.t) (ach : Achievement.t) :
  Achievement.unlocked (checkAchievement updatedStats updatedSessions ach)
  = Achievement.unlocked ach || holds ach updatedStats updatedSessions.
Proof.
  unfold checkAchievement.
  destruct (Achievement.unlocked ach) eqn:Hu; simpl; [exact Hu|].
  destruct (holds ach updatedStats updatedSessions); simpl; auto.
Qed.

(** The same inside the handler, whichever way it takes. *)
Lemma handleStop_keeps_unlocked (fuel : nat) (env : App.Env) (st st' : State)
    (log : list Effect) (i : nat) (ach : Achievement.t) :
  handleStop fuel env st = Some (st', log) ->
  nth_error (achievements st) i = Some ach ->
  Achievement.unlocked ach = true ->
  nth_error (achievements st') i = Some ach.
Proof.
  intros Hrun Hi Hu.
  assert (Hcommit : forall st1 log1,
             commitSession fuel env st = Some (st1, log1) ->
             nth_error (achievements st1) i = Some ach).
  { intros st1 log1 Hc. unfold commitSession in Hc.
    destruct (levelUp _ _ _) as [l|]; [|discriminate].
    destruct (GeminiService.getSessionFeedback _ _ _ _) as [events feedback].
    injection Hc as <- _. simpl. now apply checkAchievements_keeps. }
  unfold handleStop in Hrun.
  destruct (timerSeconds st <? 60).
  - destruct (confirm env question).
    + injection Hrun as <- _. exact Hi.
    + destruct (commitSession fuel env st) as [[st1 log1]|] eqn:Hc;
        [|discriminate].
      injection Hrun as <- _. now apply (Hcommit st1 log1).
  - now apply (Hcommit st' log).
Qed.

(** C5.  An achievement whose flag is set keeps it, and is returned as it
    was, through any number of evaluations, whatever stats and sessions they
    are given. *)
Theorem unlocked_never_reverts :
  forall (runs : list (UserStats.t * list Session.t))
         (achievements : list Achievement.t) (i : nat) (ach : Achievement.t),
    nth_error achievements i = Some ach ->
    Achievement.unlocked ach = true ->
    exists ach',
      nth_error (evaluations runs achievements) i = Some ach'
      /\ Achievement.unlocked ach' = true
      /\ ach' = ach.
Proof.
  intros runs achs i ach Hi Hu. exists ach.
  split; [now apply evaluations_keep | split; [exact Hu | reflexivity]].
Qed.

Lemma unlocked_never_reverts_witness :
  exists ach',
    nth_error
      (evaluations [(INITIAL_STATS, [])]
         (map Achievement.unlock ACHIEVEMENTS_DATA)) 0
    = Some ach'
    /\ Achievement.unlocked ach' = true
    /\ ach' = Achievement.unlock (hd (entry "" "" "" "" (fun _ _ => false))
                                  ACHIEVEMENTS_DATA).
Proof.
  apply (unlocked_never_reverts [(INITIAL_STATS, [])]
           (map Achievement.unlock ACHIEVEMENTS_DATA) 0).
  - reflexivity.
  - reflexivity.
Defined.

End Achievements.

(** ** The feedback service *)

Section Feedback.

Import GeminiService.

Lemma getClient_without_key (env : GeminiService.Env) :
  truthy (API_KEY env) = false ->
  getClient env
  = ([ConsoleWarn "API Key not found in environment variables"], None).
Proof.
  intros H. unfold getClient.
  destruct (API_KEY env) as [key|]; [|reflexivity].
  rewrite H. reflexivity.
Qed.

Lemma getClient_with_key (env : GeminiService.Env) (key : string) :
  API_KEY env = Some key ->
  truthy (Some key) = true ->
  getClient env = ([], Some (GoogleGenAI key)).
Proof.
  intros H Ht. unfold getClient. rewrite H, Ht. reflexivity.
Qed.

(** C8.  Without a credential the service returns [null] and makes no
    network call.  With a credential, when the model call throws, or when it
    returns a text that [JSON.parse] rejects, the service returns the fixed
    message of type [victory]. *)
Theorem getSessionFeedback_degrades_gracefully :
  forall (env : GeminiService.Env) (durationMinutes : Z) (subject : string)
         (level : Z),
    (truthy (API_KEY env) = false ->
     snd (getSessionFeedback env durationMinutes subject level) = None
     /\ existsb isNetworkCall
          (fst (getSessionFeedback env durationMinutes subject level)) = false)
    /\ (forall key : string,
          API_KEY env = Some key ->
          truthy (Some key) = true ->
          generateContent env (GoogleGenAI key)
            (requestFor durationMinutes subject level) = CallThrows ->
          snd (getSessionFeedback env durationMinutes subject level)
          = Some (GeminiFeedback.mk "Quest complete! Well done, adventurer."
                    victory))
    /\ (forall key text : string,
          API_KEY env = Some key ->
          truthy (Some key) = true ->
          generateContent env (GoogleGenAI key)
            (requestFor durationMinutes subject level)
          = CallReturns (Some text) ->
          truthy (Some text) = true ->
          JSON_parse env text = ParseThrows ->
          snd (getSessionFeedback env durationMinutes subject level)
          = Some (GeminiFeedback.mk "Quest complete! Well done, adventurer."
                    victory)).
Proof.
  intros env d s l. split; [|split].
  - intros H. unfold getSessionFeedback.
    rewrite (getClient_without_key env H). split; reflexivity.
  - intros key Hkey Ht Hcall. unfold getSessionFeedback.
    rewrite (getClient_with_key env key Hkey Ht), Hcall. reflexivity.
  - intros key text Hkey Ht Hcall Htext Hparse. unfold getSessionFeedback.
    rewrite (getClient_with_key env key Hkey Ht), Hcall, Htext, Hparse.
    reflexivity.
Qed.

Lemma getSessionFeedback_degrades_gracefully_witness :
  (snd (getSessionFeedback noKey 65 "X" 2) = None
   /\ existsb isNetworkCall (fst (getSessionFeedback noKey 65 "X" 2)) = false)
  /\ snd (getSessionFeedback callFails 65 "X" 2)
     = Some (GeminiFeedback.mk "Quest complete! Well done, adventurer." victory)
  /\ snd (getSessionFeedback notJSON 65 "X" 2)
     = Some (GeminiFeedback.mk "Quest complete! Well done, adventurer." victory).
Proof.
  split; [|split].
  - apply (getSessionFeedback_degrades_gracefully noKey 65 "X" 2).
    reflexivity.
  - apply (getSessionFeedback_degrades_gracefully callFails 65 "X" 2)
      with (key := "key"%string); reflexivity.
  - apply (getSessionFeedback_degrades_gracefully notJSON 65 "X" 2)
      with (key := "key"%string) (text := "<html>"%string); reflexivity.
Defined.




End Feedback.

(** ** What the loop keeps *)

Section Conservation.














End Conservation.

(** ** The handler and the ledger *)

Section Ledger.

(** The two ways out of the handler: the discard, and the commit with the
    state and the log it leaves. *)
Lemma handleStop_inversion (fuel : nat) (env : App.Env) (st st' : State)
    (log : list Effect) :
  handleStop fuel env st = Some (st', log) ->
  (timerSeconds st < 60 /\ confirm env question = true
   /\ stats st' = stats st /\ sessions st' = sessions st
   /\ achievements st' = achievements st
   /\ log = [Confirm question])
  \/ (exists (l : LevelState) (asked : list Effect),
        levelUp fuel (stats st) (minutesOf (timerSeconds st) * XP_PER_MINUTE)
        = Some l
        /\ stats st' =
           UserStats.mk (newLevel l) (newXP l) (newNextLevelXP l)
             (UserStats.totalStudyMinutes (stats st)
              + minutesOf (timerSeconds st))
             (updateStreak (timeZone env) (UserStats.lastStudyDate (stats st))
                (Date_now env) (UserStats.streakDays (stats st)))
             (Some (Date_now env))
        /\ sessions st' =
           Session.mk (randomUUID env)
             (Date_now env - timerSeconds st * 1000) (Date_now env)
             (minutesOf (timerSeconds st)) (subject st)
             (minutesOf (timerSeconds st) * XP_PER_MINUTE) :: sessions st
        /\ achievements st'
           = checkAchievements (stats st') (sessions st') (achievements st)
        /\ (asked = [] \/ asked = [Confirm question])
        /\ log =
           asked
           ++ [SetItem "qf_stats"; SetItem "qf_sessions";
               SetItem "qf_achievements"]
           ++ map Service
                (fst (GeminiService.getSessionFeedback (service env)
                        (minutesOf (timerSeconds st)) (subject st)
                        (newLevel l)))).
Proof.
  intros H.
  assert (Hcommit : forall st1 log1,
             commitSession fuel env st = Some (st1, log1) ->
             exists l,
               levelUp fuel (stats st)
                 (minutesOf (timerSeconds st) * XP_PER_MINUTE) = Some l
               /\ stats st1 =
                  UserStats.mk (newLevel l) (newXP l) (newNextLevelXP l)
                    (UserStats.totalStudyMinutes (stats st)
                     + minutesOf (timerSeconds st))
                    (updateStreak (timeZone env)
                       (UserStats.lastStudyDate (stats st))
                       (Date_now env) (UserStats.streakDays (stats st)))
                    (Some (Date_now env))
               /\ sessions st1 =
                  Session.mk (randomUUID env)
                    (Date_now env - timerSeconds st * 1000) (Date_now env)
                    (minutesOf (timerSeconds st)) (subject st)
                    (minutesOf (timerSeconds st) * XP_PER_MINUTE)
                  :: sessions st
               /\ achievements st1
                  = checkAchievements (stats st1) (sessions st1)
                      (achievements st)
               /\ log1 =
                  [SetItem "qf_stats"; SetItem "qf_sessions";
                   SetItem "qf_achievements"]
                  ++ map Service
                       (fst (GeminiService.getSessionFeedback (service env)
                               (minutesOf (timerSeconds st)) (subject st)
                               (newLevel l)))).
  { intros st1 log1 Hc. unfold commitSession in Hc.
    destruct (levelUp fuel (stats st)
                (minutesOf (timerSeconds st) * XP_PER_MINUTE)) as [l|];
      [|discriminate].
    exists l.
    destruct (GeminiService.getSessionFeedback (service env)
                (minutesOf (timerSeconds st)) (subject st) (newLevel l))
      as [events feedback].
    injection Hc as <- <-. simpl. repeat split. }
  unfold handleStop in H.
  destruct (Z.ltb_spec (timerSeconds st) 60) as [Hshort|Hlong].
  - destruct (confirm env question) eqn:Hc.
    + injection H as <- <-. left. simpl. auto 10.
    + destruct (commitSession fuel env st) as [[st1 log1]|] eqn:Hrun;
        [|discriminate].
      injection H as <- <-.
      destruct (Hcommit st1 log1 eq_refl) as (l & Hl & Hs & Hss & Ha & Hlog).
      right. exists l, [Confirm question]. rewrite Hlog. auto 10.
  - destruct (Hcommit st' log H) as (l & Hl & Hs & Hss & Ha & Hlog).
    right. exists l, []. rewrite Hlog. auto 10.
Qed.








End Ledger.

(** ** The feedback service and the committed state *)

Section Independence.

(** X5.  What the handler commits does not depend on the feedback service:
    with another service in otherwise the same surroundings it returns in
    the same cases, with the same stats, sessions, achievements, timer and
    level-up flag. *)
Theorem handleStop_independent_of_service :
  forall (fuel : nat) (env : App.Env) (other : GeminiService.Env) (st : State),
    match handleStop fuel env st, handleStop fuel (withService other env) st with
    | Some (st1, _), Some (st2, _) =>
        stats st1 = stats st2
        /\ sessions st1 = sessions st2
        /\ achievements st1 = achievements st2
        /\ timerSeconds st1 = timerSeconds st2
        /\ timerActive st1 = timerActive st2
        /\ subject st1 = subject st2
        /\ showLevelUp st1 = showLevelUp st2
    | None, None => True
    | _, _ => False
    end.
Proof.
  intros fuel env other st.
  unfold handleStop, commitSession. simpl.
  destruct (levelUp fuel (stats st)
              (minutesOf (timerSeconds st) * XP_PER_MINUTE)) as [l|].
  - destruct (GeminiService.getSessionFeedback (service env) _ _ _)
      as [events feedback].
    destruct (GeminiService.getSessionFeedback other _ _ _)
      as [events' feedback'].
    destruct (timerSeconds st <? 60); [|simpl; auto 10].
    destruct (confirm env question); simpl; auto 10.
  - destruct (timerSeconds st <? 60); [|exact I].
    destruct (confirm env question); simpl; auto 10.
Qed.

End Independence.

(** ** The streak against the ledger *)

Section StreakLedger.


Lemma updateStreak_same_day (tz : TimeZone) (last now streakDays : Z) :
  isoDate last = isoDate now ->
  updateStreak tz (Some last) now streakDays = streakDays.
Proof.
  intros H. unfold updateStreak. simpl. rewrite H, Z.eqb_refl. reflexivity.
Qed.





(** X7.  A session committed on the UTC date of the one before it leaves
    the streak as it was. *)
Theorem second_session_same_day_keeps_streak :
  forall (fuel : nat) (env : App.Env) (st st1 : State) (log1 : list Effect)
         (e : Stop) (st2 : State) (log2 : list Effect),
    handleStop fuel env st = Some (st1, log1) ->
    existsb isSetItem log1 = true ->
    handleStop fuel (stop_env e) (timedFor e st1) = Some (st2, log2) ->
    isoDate (Date_now (stop_env e)) = isoDate (Date_now env) ->
    UserStats.streakDays (stats st2) = UserStats.streakDays (stats st1).
Proof.
  intros fuel env st st1 log1 e st2 log2 H1 Hcommit H2 Hday.
  destruct (handleStop_inversion fuel env st st1 log1 H1)
    as [(_ & _ & _ & _ & _ & Hlog)|(l & asked & _ & Hs1 & _)].
  - rewrite Hlog in Hcommit. discriminate.
  - destruct (handleStop_inversion fuel (stop_env e) (timedFor e st1) st2 log2 H2)
      as [(_ & _ & Hs & _)|(l2 & asked2 & _ & Hs2 & _)].
    + rewrite Hs. reflexivity.
    + rewrite Hs2. cbn [timedFor stats UserStats.streakDays].
      rewrite Hs1. cbn [UserStats.lastStudyDate UserStats.streakDays].
      apply updateStreak_same_day. symmetry. exact Hday.
Qed.

Lemma second_session_same_day_keeps_streak_witness :
  exists (st1 st2 : State) (log1 log2 : list Effect),
    handleStop 1 (envAnswering false) (timed 3900 "X" initialState)
    = Some (st1, log1)
    /\ handleStop 1 (envAnswering false)
         (timedFor {| stop_env := envAnswering false; stop_seconds := 90;
                      stop_subject := "Y" |} st1)
       = Some (st2, log2)
    /\ UserStats.streakDays (stats st2) = UserStats.streakDays (stats st1).
Proof.
  eexists. eexists. eexists. eexists.
  split; [reflexivity|]. split; [reflexivity|].
  eapply (second_session_same_day_keeps_streak 1 (envAnswering false)
            (timed 3900 "X" initialState) _ _
            {| stop_env := envAnswering false; stop_seconds := 90;
               stop_subject := "Y" |}).
  - reflexivity.
  - reflexivity.
  - reflexivity.
  - reflexivity.
Defined.

End StreakLedger.

(** ** More on the achievement evaluator *)

Section Evaluator.

Lemma checkAchievement_idempotent (stats : UserStats.t)
    (sessions : list Session.t) (ach : Achievement.t) :
  checkAchievement stats sessions (checkAchievement stats sessions ach)
  = checkAchievement stats sessions ach.
Proof.
  unfold checkAchievement.
  destruct (Achievement.unlocked ach) eqn:Hu; simpl.
  - rewrite Hu. reflexivity.
  - destruct (holds ach stats sessions) eqn:Hh; simpl.
    + reflexivity.
    + rewrite Hu, Hh. reflexivity.
Qed.

(** X8.  Evaluating the achievements a second time with the same stats and
    sessions changes nothing. *)
Theorem checkAchievements_idempotent :
  forall (stats : UserStats.t) (sessions : list Session.t)
         (achievements : list Achievement.t),
    checkAchievements stats sessions
      (checkAchievements stats sessions achievements)
    = checkAchievements stats sessions achievements.
Proof.
  intros stats sessions achs. unfold checkAchievements.
  rewrite map_map. apply map_ext.
  intros ach. apply checkAchievement_idempotent.
Qed.

(** X9.  The evaluator returns the catalog in its order and changes nothing
    but flags: every entry keeps its id, title, description, icon and
    condition, and its flag afterwards is set exactly when it was set or
    the entry has a condition that holds. *)
Theorem checkAchievements_changes_flags_only :
  forall (stats : UserStats.t) (sessions : list Session.t)
         (achievements : list Achievement.t),
    map (fun a => (Achievement.id a, Achievement.title a,
                   Achievement.description a, Achievement.icon a,
                   Achievement.condition a))
      (checkAchievements stats sessions achievements)
    = map (fun a => (Achievement.id a, Achievement.title a,
                     Achievement.description a, Achievement.icon a,
                     Achievement.condition a))
        achievements
    /\ map Achievement.unlocked (checkAchievements stats sessions achievements)
       = map (fun a => Achievement.unlocked a || holds a stats sessions)
           achievements.
Proof.
  intros stats sessions achs. unfold checkAchievements.
  rewrite !map_map. split; apply map_ext; intros ach.
  - unfold checkAchievement.
    destruct (negb (Achievement.unlocked ach) && holds ach stats sessions);
      reflexivity.
  - apply checkAchievement_flag.
Qed.

End Evaluator.

(** ** The store and the reload *)

Section Reload.

Lemma persist_app (throws : string -> bool) (st : State)
    (log1 log2 : list Effect) (ls : LocalStorage) :
  persist throws st (log1 ++ log2) ls
  = persist throws st log2 (persist throws st log1 ls).
Proof. unfold persist. apply fold_left_app. Qed.

Lemma persist_service (throws : string -> bool) (st : State)
    (events : list GeminiService.Event) :
  forall ls : LocalStorage, persist throws st (map Service events) ls = ls.
Proof.
  induction events as [|e events IH]; intros ls; [reflexivity|].
  simpl. apply IH.
Qed.

Lemma persist_asked (throws : string -> bool) (st : State)
    (asked : list Effect) (ls : LocalStorage) :
  asked = [] \/ asked = [Confirm question] ->
  persist throws st asked ls = ls.
Proof. intros [->| ->]; reflexivity. Qed.

(** The store after a commit: each of the three keys written on its own. *)
Lemma persist_commit (throws : string -> bool) (st : State)
    (asked : list Effect) (events : list GeminiService.Event)
    (ls : LocalStorage) :
  asked = [] \/ asked = [Confirm question] ->
  persist throws st
    (asked
     ++ [SetItem "qf_stats"; SetItem "qf_sessions"; SetItem "qf_achievements"]
     ++ map Service events) ls
  = {| qf_stats := setItem (throws "qf_stats"%string) (stats st) (qf_stats ls);
       qf_sessions :=
         setItem (throws "qf_sessions"%string) (sessions st) (qf_sessions ls);
       qf_achievements :=
         setItem (throws "qf_achievements"%string)
           (map reloaded (achievements st)) (qf_achievements ls) |}.
Proof.
  intros Hasked.
  rewrite !persist_app, (persist_asked _ _ _ _ Hasked), persist_service.
  reflexivity.
Qed.




(** X11.  A stop that commits writes each of the three keys on its own: a
    key whose write succeeds holds the new stats, the new ledger or the new
    achievements (without their conditions), a key whose write throws keeps
    what it held.  When all three succeed, the next page load starts from
    the stats and the sessions that were committed.  A stop that is
    discarded leaves the store as it was. *)
Theorem stop_then_reload :
  forall (fuel : nat) (env : App.Env) (throws : string -> bool)
         (st st1 : State) (log1 : list Effect) (ls : LocalStorage),
    handleStop fuel env st = Some (st1, log1) ->
    (existsb isSetItem log1 = true ->
     persist throws st1 log1 ls
     = {| qf_stats :=
            setItem (throws "qf_stats"%string) (stats st1) (qf_stats ls);
          qf_sessions :=
            setItem (throws "qf_sessions"%string) (sessions st1)
              (qf_sessions ls);
          qf_achievements :=
            setItem (throws "qf_achievements"%string)
              (map reloaded (achievements st1)) (qf_achievements ls) |}
     /\ (throws "qf_stats"%string = false ->
         stats (launch (persist throws st1 log1 ls)) = stats st1)
     /\ (throws "qf_sessions"%string = false ->
         sessions (launch (persist throws st1 log1 ls)) = sessions st1))
    /\ (existsb isSetItem log1 = false -> persist throws st1 log1 ls = ls).
Proof.
  intros fuel env throws st st1 log1 ls H1.
  destruct (handleStop_inversion fuel env st st1 log1 H1)
    as [(_ & _ & _ & _ & _ & Hlog)|(l & asked & _ & _ & _ & _ & Hasked & Hlog)].
  - rewrite Hlog. split; [discriminate | reflexivity].
  - rewrite Hlog. split.
    + intros _. rewrite (persist_commit _ _ _ _ _ Hasked).
      split; [reflexivity|]. simpl.
      split; intros Hw; rewrite Hw; reflexivity.
    + intros Hno. exfalso.
      rewrite !existsb_app in Hno. simpl in Hno.
      rewrite orb_true_r in Hno. discriminate.
Qed.

Lemma stop_then_reload_witness :
  exists (st1 : State) (log1 : list Effect),
    handleStop 1 (envAnswering false) (timed 3900 "X" initialState)
    = Some (st1, log1)
    /\ stats (launch (persist (fun _ => false) st1 log1 emptyStorage))
       = stats st1
    /\ sessions (launch (persist (fun _ => false) st1 log1 emptyStorage))
       = sessions st1.
Proof.
  eexists. eexists. split; [reflexivity|].
  destruct (stop_then_reload 1 (envAnswering false) (fun _ => false)
              (timed 3900 "X" initialState) _ _ emptyStorage eq_refl)
    as [Hcommit _].
  destruct (Hcommit eq_refl) as (_ & Hstats & Hsessions).
  split; [apply Hstats | apply Hsessions]; reflexivity.
Defined.

End Reload.

(** ** The timer *)

Section TimerTicks.

Lemma ticks_last (refs : Refs) (st : State) (times : list Z) (t : Z) :
  timerSeconds (ticks refs st (times ++ [t])) = (t - startOrZero refs) / 1000.
Proof.
  unfold ticks. rewrite fold_left_app. reflexivity.
Qed.

Lemma seconds_since (start now seconds : Z) :
  (now - (start - seconds * 1000)) / 1000 = seconds + (now - start) / 1000.
Proof.
  replace (now - (start - seconds * 1000))
    with (now - start + seconds * 1000) by lia.
  rewrite Z.div_add by lia. lia.
Qed.

(** X12.  A timer resumed after a pause at the instant [now], with
    [timerSeconds] seconds on the clock, shows at the tick of instant [t],
    however many ticks came before, those seconds plus the whole seconds
    from [now] to [t]: nothing on the clock is lost by the pause, and the
    ticks add no drift. *)
Theorem resumed_timer_shows_elapsed_seconds :
  forall (env : StartEnv) (st : State) (now interval : Z) (refs : Refs)
         (times : list Z) (t : Z),
    isEmpty (trim env (subject st)) = false ->
    let resumed := fst (handleStart env (handlePause st)) in
    let shown :=
      timerSeconds
        (ticks (timerEffect now interval resumed refs) resumed (times ++ [t]))
    in
    timerActive resumed = true
    /\ shown = timerSeconds st + (t - now) / 1000
    /\ (now <= t ->
        timerSeconds st <= shown
        /\ 1000 * (shown - timerSeconds st) <= t - now
           < 1000 * (shown - timerSeconds st) + 1000).
Proof.
  intros env st now interval refs times t Hsubject resumed shown.
  assert (Hresumed : resumed
                     = {| stats := stats st;
                          sessions := sessions st;
                          achievements := achievements st;
                          currentView := currentView st;
                          timerActive := true;
                          timerSeconds := timerSeconds st;
                          subject := subject st;
                          showLevelUp := showLevelUp st;
                          geminiFeedback := None;
                          loadingFeedback := loadingFeedback st |}).
  { unfold resumed, handleStart. cbn [handlePause subject].
    rewrite Hsubject. reflexivity. }
  assert (Hshown : shown = timerSeconds st + (t - now) / 1000).
  { unfold shown. rewrite ticks_last, Hresumed.
    unfold timerEffect, startOrZero. cbn.
    apply seconds_since. }
  split; [rewrite Hresumed; reflexivity|].
  split; [exact Hshown|].
  intros Hle. rewrite Hshown.
  pose proof (Z.div_mod (t - now) 1000 ltac:(lia)).
  pose proof (Z.mod_pos_bound (t - now) 1000 ltac:(lia)).
  pose proof (Z.div_pos (t - now) 1000 ltac:(lia) ltac:(lia)).
  lia.
Qed.

Lemma resumed_timer_shows_elapsed_seconds_witness :
  timerSeconds
    (ticks
       (timerEffect 5000 1
          (fst (handleStart {| trim := fun s => s |}
                  (handlePause (timed 30 "X" initialState))))
          {| intervalRef := None; startTimeRef := None |})
       (fst (handleStart {| trim := fun s => s |}
               (handlePause (timed 30 "X" initialState))))
       ([6000; 7001] ++ [9999]))
  = timerSeconds (timed 30 "X" initialState) + (9999 - 5000) / 1000.
Proof.
  apply (resumed_timer_shows_elapsed_seconds {| trim := fun s => s |}
           (timed 30 "X" initialState) 5000 1
           {| intervalRef := None; startTimeRef := None |} [6000; 7001] 9999).
  reflexivity.
Defined.

End TimerTicks.

(** ** The clock text *)

Section Clock.

Import TimerDisplay.

Lemma pad_two_digits (n : Z) :
  0 <= n < 100 -> String.length (pad n) = 2%nat.
Proof.
  intros H.
  assert (Hall : forallb (fun k => Nat.eqb (String.length (pad (Z.of_nat k))) 2)
                   (seq 0 100) = true) by (vm_compute; reflexivity).
  rewrite forallb_forall in Hall.
  specialize (Hall (Z.to_nat n)).
  rewrite Z2Nat.id in Hall by lia.
  apply Nat.eqb_eq, Hall, in_seq. lia.
Qed.

Lemma length_append (a b : string) :
  String.length (a ++ b) = (String.length a + String.length b)%nat.
Proof. induction a as [|c a IH]; simpl; [reflexivity | now rewrite IH]. Qed.

(** X13.  For a non-negative number of seconds the clock splits it into
    hours, minutes below 60 and seconds below 60 that add up to it; below
    100 hours the text is [MM:SS] under one hour and [HH:MM:SS] from one
    hour on. *)
Theorem clock_splits_seconds :
  forall seconds : Z,
    0 <= seconds ->
    hrs seconds * 3600 + mins seconds * 60 + secs seconds = seconds
    /\ 0 <= hrs seconds
    /\ 0 <= mins seconds < 60
    /\ 0 <= secs seconds < 60
    /\ (seconds < 360000 ->
        String.length (clockText seconds)
        = if seconds <? 3600 then 5%nat else 8%nat).
Proof.
  intros seconds H. unfold hrs, mins, secs.
  rewrite !Z.rem_mod_nonneg by lia.
  pose proof (Z.div_mod seconds 3600 ltac:(lia)) as H3600.
  pose proof (Z.mod_pos_bound seconds 3600 ltac:(lia)) as B3600.
  pose proof (Z.div_mod (seconds mod 3600) 60 ltac:(lia)) as H60.
  pose proof (Z.mod_pos_bound (seconds mod 3600) 60 ltac:(lia)) as B60.
  pose proof (Z.mod_pos_bound seconds 60 ltac:(lia)) as Bs.
  assert (Hsecs : seconds mod 60 = (seconds mod 3600) mod 60).
  { rewrite <- (Z.mod_add (seconds mod 3600) (60 * (seconds / 3600)) 60)
      by lia.
    f_equal. lia. }
  assert (Hh : 0 <= seconds / 3600) by (apply Z.div_pos; lia).
  assert (Hm : 0 <= seconds mod 3600 / 60 < 60).
  { split; [apply Z.div_pos; lia|]. apply Z.div_lt_upper_bound; lia. }
  repeat split; try lia.
  intros Hbound.
  assert (Hhr : seconds / 3600 < 100) by (apply Z.div_lt_upper_bound; lia).
  unfold clockText, hrs, mins, secs.
  rewrite !Z.rem_mod_nonneg by lia.
  destruct (Z.ltb_spec seconds 3600) as [Hlt|Hge].
  - rewrite Z.div_small by lia. cbn [Z.gtb Z.compare].
    rewrite !length_append, !pad_two_digits by lia. reflexivity.
  - assert (Hpos : 0 < seconds / 3600) by (apply Z.div_str_pos; lia).
    destruct (Z.gtb_spec (seconds / 3600) 0) as [_|Hno]; [|lia].
    rewrite !length_append, !pad_two_digits by lia. reflexivity.
Qed.

Lemma clock_splits_seconds_witness :
  hrs 3725 * 3600 + mins 3725 * 60 + secs 3725 = 3725
  /\ 0 <= hrs 3725
  /\ 0 <= mins 3725 < 60
  /\ 0 <= secs 3725 < 60
  /\ (3725 < 360000 ->
      String.length (clockText 3725) = if 3725 <? 3600 then 5%nat else 8%nat).
Proof.
  apply (clock_splits_seconds 3725). lia.
Defined.

End Clock.

(** ** The progress bar *)

Section Bar.

Import ProgressBar.




End Bar.

(** ** The figures of the stats view *)

Section Figures.

Import StatsView.

Lemma isoDate_days_before (t k : Z) : isoDate (t - k * msPerDay) = isoDate t - k.
Proof.
  unfold isoDate, Day, msPerDay.
  replace (t - k * 86400000) with (t + (- k) * 86400000) by lia.
  rewrite Z.div_add by lia. lia.
Qed.

Lemma last7Days_fixed (offset now : Z) :
  last7Days (fixedZone offset) now
  = [isoDate now - 6; isoDate now - 5; isoDate now - 4; isoDate now - 3;
     isoDate now - 2; isoDate now - 1; isoDate now].
Proof.
  unfold last7Days, setDate_daysAgo, UTC, LocalTime. cbn [fixedZone LocalTZA].
  cbn [seq map].
  repeat match goal with
         | |- context [isoDate (now + offset - ?k * msPerDay - offset)] =>
             replace (now + offset - k * msPerDay - offset)
               with (now - k * msPerDay) by lia;
             rewrite (isoDate_days_before now k)
         end.
  repeat f_equal; lia.
Qed.

Lemma fold_minutes (sessions : list Session.t) :
  forall acc : Z,
    fold_left (fun acc curr => acc + Session.durationMinutes curr) sessions acc
    = acc + ledgerMinutes sessions.
Proof.
  induction sessions as [|s rest IH]; intros acc; simpl; [lia|].
  rewrite IH. unfold ledgerMinutes. lia.
Qed.

Lemma dayMinutes_cons (s : Session.t) (rest : list Session.t) (date : Z) :
  dayMinutes (s :: rest) date
  = (if isoDate (Session.startTime s) =? date
     then Session.durationMinutes s else 0)
    + dayMinutes rest date.
Proof.
  unfold dayMinutes. cbn [filter].
  destruct (isoDate (Session.startTime s) =? date); [|lia].
  cbn [fold_left]. rewrite !fold_minutes. lia.
Qed.

(** X15.  In a zone whose offset does not change, the chart has seven
    bars, for the UTC day of [now] and the six days before it, oldest first;
    each bar is the minutes of the sessions that started on its day, and the
    bars together are the minutes of the sessions that started on one of
    these days, each counted once. *)
Theorem chart_counts_recent_sessions_once :
  forall (offset now : Z) (sessions : list Session.t),
    map minutes (chartData (fixedZone offset) now sessions)
    = map (dayMinutes sessions)
        [isoDate now - 6; isoDate now - 5; isoDate now - 4; isoDate now - 3;
         isoDate now - 2; isoDate now - 1; isoDate now]
    /\ chartTotal (chartData (fixedZone offset) now sessions)
       = ledgerMinutes (filter (inLast7Days now) sessions).
Proof.
  intros offset now sessions. unfold chartData.
  rewrite last7Days_fixed. split; [reflexivity|].
  cbn [map chartTotal fold_right minutes].
  induction sessions as [|s rest IH].
  - reflexivity.
  - rewrite !dayMinutes_cons. cbn [filter]. unfold inLast7Days at 1.
    set (d := isoDate (Session.startTime s)) in *.
    set (today := isoDate now) in *.
    destruct (Z.leb_spec (today - 6) d) as [Hlo|Hlo];
      destruct (Z.leb_spec d today) as [Hhi|Hhi];
      cbn [andb ledgerMinutes fold_right];
      fold (ledgerMinutes (filter (inLast7Days now) rest));
      rewrite <- ?IH;
      destruct (Z.eqb_spec d (today - 6)); destruct (Z.eqb_spec d (today - 5));
      destruct (Z.eqb_spec d (today - 4)); destruct (Z.eqb_spec d (today - 3));
      destruct (Z.eqb_spec d (today - 2)); destruct (Z.eqb_spec d (today - 1));
      destruct (Z.eqb_spec d today); lia.
Qed.

Lemma weekday_of_local_midnight (offset date : Z) :
  Day (LocalTime (fixedZone offset) (date * msPerDay))
  = date + offset / msPerDay.
Proof.
  unfold Day, LocalTime. cbn [fixedZone LocalTZA].
  rewrite Z.add_comm, Z.div_add by (unfold msPerDay; lia). lia.
Qed.

(** X16.  The label of a bar is the weekday of its date in a zone at or
    east of UTC (offset from 0 to less than a day), and the weekday of the
    day before its date in a zone west of UTC. *)
Theorem bar_label_weekday :
  forall offset date : Z,
    (0 <= offset < msPerDay ->
     weekdayShort (fixedZone offset) date = weekdayShort (fixedZone 0) date)
    /\ (- msPerDay <= offset < 0 ->
        weekdayShort (fixedZone offset) date
        = weekdayShort (fixedZone 0) (date - 1)).
Proof.
  intros offset date. unfold weekdayShort, WeekDay.
  rewrite !weekday_of_local_midnight.
  change (0 / msPerDay) with 0. rewrite !Z.add_0_r.
  split; intros H.
  - rewrite (Z.div_small offset msPerDay H), Z.add_0_r. reflexivity.
  - replace (offset / msPerDay) with (-1); [reflexivity|].
    apply Z.div_unique with (r := offset + msPerDay);
      unfold msPerDay in *; lia.
Qed.

Lemma bar_label_weekday_witness :
  weekdayShort (fixedZone (2 * msPerHour)) (dayOfDate 2024 1 7)
  = weekdayShort (fixedZone 0) (dayOfDate 2024 1 7)
  /\ weekdayShort (fixedZone (-5 * msPerHour)) (dayOfDate 2024 1 7)
     = weekdayShort (fixedZone 0) (dayOfDate 2024 1 7 - 1).
Proof.
  split.
  - apply (bar_label_weekday (2 * msPerHour) (dayOfDate 2024 1 7)).
    unfold msPerHour, msPerDay. lia.
  - apply (bar_label_weekday (-5 * msPerHour) (dayOfDate 2024 1 7)).
    unfold msPerHour, msPerDay. lia.
Defined.




End Figures.

(** ** The calls of the feedback service *)

Section Calls.

Import GeminiService.

(** X18.  The service calls the model once when there is a key and never
    otherwise, whatever comes back; the call is for [gemini-2.5-flash] with
    the level, the subject and the duration it was given.  It logs at most
    one error, and a response that [JSON.parse] accepts is returned as it
    was parsed. *)
Theorem getSessionFeedback_calls_once :
  forall (env : GeminiService.Env) (durationMinutes : Z) (subject : string)
         (level : Z),
    (truthy (API_KEY env) = false ->
     filter isNetworkCall
       (fst (getSessionFeedback env durationMinutes subject level)) = [])
    /\ (forall key : string,
          API_KEY env = Some key ->
          truthy (Some key) = true ->
          filter isNetworkCall
            (fst (getSessionFeedback env durationMinutes subject level))
          = [NetworkCall (GoogleGenAI key)
               {| model := "gemini-2.5-flash";
                  contents :=
                    {| prompt_level := level;
                       prompt_subject := subject;
                       prompt_durationMinutes := durationMinutes |};
                  responseMimeType := "application/json" |}]
          /\ (List.length
                (filter isConsoleError
                   (fst (getSessionFeedback env durationMinutes subject level)))
              <= 1)%nat
          /\ forall (text : string) (v : option GeminiFeedback.t),
              generateContent env (GoogleGenAI key)
                (requestFor durationMinutes subject level)
              = CallReturns (Some text) ->
              truthy (Some text) = true ->
              JSON_parse env text = ParseValue v ->
              snd (getSessionFeedback env durationMinutes subject level) = v).
Proof.
  intros env d s l. split.
  - intros H. unfold getSessionFeedback.
    rewrite (getClient_without_key env H). reflexivity.
  - intros key Hkey Ht. unfold getSessionFeedback.
    rewrite (getClient_with_key env key Hkey Ht).
    destruct (generateContent env (GoogleGenAI key) (requestFor d s l))
      as [|[text|]] eqn:Hcall.
    + repeat split; try (simpl; lia). discriminate.
    + destruct (truthy (Some text)) eqn:Htext; cbn [negb].
      * destruct (JSON_parse env text) as [|v] eqn:Hparse.
        -- repeat split; try (simpl; lia).
           intros text' v' Heq _ Hp. injection Heq as <-. congruence.
        -- repeat split; try (simpl; lia).
           intros text' v' Heq _ Hp. injection Heq as <-.
           rewrite Hparse in Hp. injection Hp as <-. reflexivity.
      * repeat split; try (simpl; lia).
        intros text' v' Heq Ht'. injection Heq as <-. congruence.
    + repeat split; try (simpl; lia). discriminate.
Qed.

Lemma getSessionFeedback_calls_once_witness :
  filter isNetworkCall (fst (getSessionFeedback noKey 65 "X" 2)) = []
  /\ filter isNetworkCall (fst (getSessionFeedback notJSON 65 "X" 2))
     = [NetworkCall (GoogleGenAI "key")
          {| model := "gemini-2.5-flash";
             contents :=
               {| prompt_level := 2;
                  prompt_subject := "X";
                  prompt_durationMinutes := 65 |};
             responseMimeType := "application/json" |}].
Proof.
  split.
  - apply (getSessionFeedback_calls_once noKey 65 "X" 2). reflexivity.
  - apply (getSessionFeedback_calls_once notJSON 65 "X" 2)
      with (key := "key"%string); reflexivity.
Defined.

End Calls.

(** ** The session that a stop records *)

Section Recorded.

(** X19.  A stop that commits puts one new session in front of the ledger
    and leaves the older ones as they were.  The minutes of the new session
    are the elapsed seconds rounded up to whole minutes, so at most 59
    seconds more than elapsed; it earns 10 XP a minute, carries the subject
    of the timer, and its minutes are added to [totalStudyMinutes]. *)
Theorem committed_session :
  forall (fuel : nat) (env : App.Env) (st st' : State) (log : list Effect),
    handleStop fuel env st = Some (st', log) ->
    existsb isSetItem log = true ->
    exists s : Session.t,
      sessions st' = s :: sessions st
      /\ timerSeconds st <= 60 * Session.durationMinutes s
         < timerSeconds st + 60
      /\ Session.xpEarned s = 10 * Session.durationMinutes s
      /\ Session.subject s = subject st
      /\ UserStats.totalStudyMinutes (stats st')
         = UserStats.totalStudyMinutes (stats st) + Session.durationMinutes s.
Proof.
  intros fuel env st st' log Hrun Hcommit.
  destruct (handleStop_inversion fuel env st st' log Hrun)
    as [(_ & _ & _ & _ & _ & Hlog)|(l & asked & _ & Hs & Hss & _)].
  - rewrite Hlog in Hcommit. discriminate.
  - eexists. split; [exact Hss|]. rewrite Hs.
    cbn [Session.durationMinutes Session.xpEarned Session.subject
         UserStats.totalStudyMinutes].
    pose proof (minutesOf_bounds (timerSeconds st)).
    unfold XP_PER_MINUTE. repeat split; try reflexivity; lia.
Qed.

Lemma committed_session_witness :
  exists (st' : State) (log : list Effect) (s : Session.t),
    handleStop 1 (envAnswering false) (timed 61 "X" initialState)
    = Some (st', log)
    /\ sessions st' = s :: sessions (timed 61 "X" initialState)
    /\ timerSeconds (timed 61 "X" initialState)
       <= 60 * Session.durationMinutes s
       < timerSeconds (timed 61 "X" initialState) + 60
    /\ Session.xpEarned s = 10 * Session.durationMinutes s
    /\ Session.subject s = subject (timed 61 "X" initialState)
    /\ UserStats.totalStudyMinutes (stats st')
       = UserStats.totalStudyMinutes (stats (timed 61 "X" initialState))
         + Session.durationMinutes s.
Proof.
  eexists. eexists.
  destruct (committed_session 1 (envAnswering false)
              (timed 61 "X" initialState) _ _ eq_refl eq_refl) as (s & Hs).
  exists s. split; [reflexivity | exact Hs].
Defined.

Lemma stops_extend_ledger (events : list Stop) :
  forall (fuel : nat) (st st' : State),
    stops fuel events st = Some st' ->
    exists added : list Session.t,
      sessions st' = added ++ sessions st
      /\ (List.length added <= List.length events)%nat.
Proof.
  induction events as [|e rest IH]; intros fuel st st' Hrun.
  - injection Hrun as <-. exists []. split; [reflexivity | simpl; lia].
  - cbn [stops] in Hrun.
    destruct (handleStop fuel (stop_env e) (timedFor e st))
      as [[st1 log1]|] eqn:H1; [|discriminate].
    destruct (IH fuel st1 st' Hrun) as (added & Hadded & Hlen).
    destruct (handleStop_inversion _ _ _ _ _ H1)
      as [(_ & _ & _ & Hss & _)|(l & asked & _ & _ & Hss & _)].
    + exists added. rewrite Hadded, Hss. split; [reflexivity | simpl; lia].
    + eexists (added ++ [_]). rewrite Hadded, Hss, <- app_assoc.
      split; [reflexivity|]. rewrite length_app. simpl. lia.
Qed.

(** X20.  The ledger only grows at its front: after any sequence of stops
    that returns, the sessions are those from before with at most one new
    session per stop put in front of them; none is removed, changed or
    moved. *)
Theorem ledger_is_append_only :
  forall (events : list Stop) (fuel : nat) (st st' : State),
    stops fuel events st = Some st' ->
    exists added : list Session.t,
      sessions st' = added ++ sessions st
      /\ (List.length added <= List.length events)%nat.
Proof.
  intros events fuel st st' Hrun.
  destruct (stops_extend_ledger events fuel st st' Hrun)
    as (added & Hadded & Hlen).
  exists added. split; [exact Hadded | exact Hlen].
Qed.

Lemma ledger_is_append_only_witness :
  exists (st' : State) (added : list Session.t),
    stops 1
      [ {| stop_env := envAnswering false; stop_seconds := 3900;
           stop_subject := "X" |};
        {| stop_env := envAnswering true; stop_seconds := 30;
           stop_subject := "Y" |} ]
      initialState = Some st'
    /\ sessions st' = added ++ sessions initialState
    /\ (List.length added <= 2)%nat.
Proof.
  eexists.
  destruct (ledger_is_append_only
              [ {| stop_env := envAnswering false; stop_seconds := 3900;
                   stop_subject := "X" |};
                {| stop_env := envAnswering true; stop_seconds := 30;
                   stop_subject := "Y" |} ]
              1 initialState _ eq_refl) as (added & Hadded).
  exists added. split; [reflexivity | exact Hadded].
Defined.

End Recorded.
